(** * Serial-link acceptance tester: a shallow embedding of the test engine

    The development follows the Python sources:
    - [core/Process_Control_20251201.py]: [TestStateManager], [Validator],
      [TestJudge], [UARTCommunicator] and [TestRunner];
    - [core/Conditional.py] and [ctrl/UART_communication.py]: the earlier
      [Validator] and [UARTCommunicator], kept in [Module Legacy].

    Conventions of the embedding.
    - A Python [str] is a [string]; each [ascii] stands for the code point of
      the same number, so the model covers the code points 0..255.
    - A Python [int] is a [Z]; a [float] holding seconds is a [Q].
    - A dictionary read from YAML is a [gmap] from keys to scalars; a
      dictionary with a fixed set of keys that the code indexes directly
      ([entry["Title"]]) is a record.
    - Methods that touch the state manager, the command library, the serial
      port, the clock or the stop event are computations in the monad [M]:
      they return, raise a Python exception, or block for ever on a lock. *)

From Stdlib Require Import ZArith QArith Qround String Ascii List Lia.
From stdpp Require Import base option gmap strings list pretty.

Open Scope Z_scope.
Open Scope string_scope.

(** ** Python values and exceptions *)

(** Scalars that the YAML files and the user inputs carry. *)
Inductive pyval : Type :=
  | PyNone
  | PyStr (s : string)
  | PyInt (z : Z).

#[global] Instance pyval_eq_dec : EqDecision pyval.
Proof. solve_decision. Defined.

Inductive exn : Type :=
  | ValueError
  | TypeError
  | SerialException
  | UnicodeDecodeError
  | OSError.

#[global] Instance exn_eq_dec : EqDecision exn.
Proof. solve_decision. Defined.

Definition exn_name (e : exn) : string :=
  match e with
  | ValueError => "ValueError"
  | TypeError => "TypeError"
  | SerialException => "SerialException"
  | UnicodeDecodeError => "UnicodeDecodeError"
  | OSError => "OSError"
  end.

(** The result of an expression that can raise. *)
Inductive attempt (A : Type) : Type :=
  | Ok (a : A)
  | Err (e : exn).
Arguments Ok {A} a.
Arguments Err {A} e.

(** Truth value of a scalar, as [if v:] tests it. *)
Definition truthy (v : pyval) : bool :=
  match v with
  | PyNone => false
  | PyStr s => negb (String.eqb s "")
  | PyInt z => negb (z =? 0)%Z
  end.

(** [str(v)], as an f-string formats it. *)
Definition py_str (v : pyval) : string :=
  match v with
  | PyNone => "None"
  | PyStr s => s
  | PyInt z => pretty z
  end.

(** [a == v] for a string [a]. *)
Definition str_eq_pyval (a : string) (v : pyval) : bool :=
  match v with
  | PyStr s => String.eqb a s
  | _ => false
  end.

(** ** Strings *)

Module PyString.

(** The first ASCII space of [s], if any: the text before it and the text
    after it. *)
Fixpoint partition_space (s : string) : option (string * string) :=
  match s with
  | EmptyString => None
  | String c r =>
      if Ascii.eqb c " "%char then Some (EmptyString, r)
      else match partition_space r with
           | Some (p, a) => Some (String c p, a)
           | None => None
           end
  end.

(** [s.split(" ", 1)]: at most one split, at the first space. *)
Definition split_space_1 (s : string) : list string :=
  match partition_space s with
  | Some (p, a) => [p; a]
  | None => [s]
  end.

(** White space as [str.strip()] sees it, for code points below 256. *)
Definition is_space (c : ascii) : bool :=
  let n := N_of_ascii c in
  ((9 <=? n) && (n <=? 13) || (28 <=? n) && (n <=? 32)
   || (n =? 133) || (n =? 160))%N.

(** White space as [int()] skips it, for code points below 256. *)
Definition is_int_space (c : ascii) : bool :=
  let n := N_of_ascii c in
  ((9 <=? n) && (n <=? 13) || (n =? 32) || (n =? 133) || (n =? 160))%N.

Fixpoint lstrip (sp : ascii -> bool) (s : string) : string :=
  match s with
  | EmptyString => EmptyString
  | String c r => if sp c then lstrip sp r else s
  end.

Fixpoint rstrip (sp : ascii -> bool) (s : string) : string :=
  match s with
  | EmptyString => EmptyString
  | String c r =>
      match rstrip sp r with
      | EmptyString => if sp c then EmptyString else String c EmptyString
      | r' => String c r'
      end
  end.

(** [s.strip()] *)
Definition strip (s : string) : string := rstrip is_space (lstrip is_space s).

Definition digit_value (c : ascii) : option Z :=
  let n := N_of_ascii c in
  if ((48 <=? n) && (n <=? 57))%N then Some (Z.of_N n - 48) else None.

(** Decimal digits with single underscores between digits; [acc] is the
    value read so far, [n] the number of digits read, and the previous
    character was a digit. *)
Fixpoint digits_tail (s : string) (acc : Z) (n : nat) : option (Z * nat) :=
  match s with
  | EmptyString => Some (acc, n)
  | String c r =>
      match digit_value c with
      | Some d => digits_tail r (acc * 10 + d) (S n)
      | None =>
          if Ascii.eqb c "_"%char then
            match r with
            | String c' r' =>
                match digit_value c' with
                | Some d => digits_tail r' (acc * 10 + d) (S n)
                | None => None
                end
            | EmptyString => None
            end
          else None
      end
  end.

Definition digits (s : string) : option (Z * nat) :=
  match s with
  | String c r =>
      match digit_value c with
      | Some d => digits_tail r d 1
      | None => None
      end
  | EmptyString => None
  end.

(** The interpreter's limit on the number of digits of a decimal literal
    converted by [int()]. *)
Definition max_str_digits : nat := 4300.

(** [int(s)] in base ten; [None] stands for [ValueError]. *)
Definition to_int (s : string) : option Z :=
  let body := rstrip is_int_space (lstrip is_int_space s) in
  let '(neg, ds) :=
    match body with
    | String "-" r => (true, r)
    | String "+" r => (false, r)
    | _ => (false, body)
    end in
  match digits ds with
  | Some (v, n) =>
      if (n <=? max_str_digits)%nat then Some (if neg then (- v)%Z else v)
      else None
  | None => None
  end.

End PyString.

(** [int(v)] for a scalar. *)
Definition py_int (v : pyval) : attempt Z :=
  match v with
  | PyInt z => Ok z
  | PyStr s =>
      match PyString.to_int s with
      | Some z => Ok z
      | None => Err ValueError
      end
  | PyNone => Err TypeError
  end.

(** ** Response classification

    [Validator.classify_data] reads the same in [Conditional.py] and in
    [Process_Control_20251201.py]: the unpacking of the split raises
    [ValueError] unless it has two parts, and the handler keeps the whole
    response as prefix. *)
Definition classify_data (response : string) : string * option string :=
  match PyString.split_space_1 response with
  | [prefix; actual_value] => (prefix, Some actual_value)
  | _ => (response, None)
  end.


(** [dict.get(key)] and [dict.get(key, default)] on a dictionary of scalars. *)
Definition dict_get (d : gmap string pyval) (key : string) : pyval :=
  default PyNone (d !! key).

Definition dict_get_default (d : gmap string pyval) (key : string)
    (dflt : pyval) : pyval :=
  default dflt (d !! key).

(** ** Data model *)

Inductive TestState : Type :=
  | IDLE
  | INITIALIZING
  | RUNNING
  | PAUSED
  | COMPLETED
  | FAILED
  | STOPPED.

#[global] Instance TestState_eq_dec : EqDecision TestState.
Proof. solve_decision. Defined.

Record TestResult : Type := mkTestResult {
  step_name : string;
  command_id : string;
  title : string;
  command_sent : string;
  prefix : string;
  actual_value : option string;
  expected_value : pyval;
  result : string;
  duration : Q;
  timestamp : Q;
  error_message : option string
}.

(** An entry of the command library.  [Response_Expectation] and
    [Condition] are read with [.get] and may be missing. *)
Record CommandEntry : Type := mkCommandEntry {
  ID : string;
  Title : string;
  Command_Sends : string;
  Response_Expectation : option string;
  Condition : option (gmap string pyval)
}.

(** One step of a test plan: a dictionary from step names to command
    numbers, in the order of the file; a number can be null. *)
Definition TestStep : Type := list (string * option Z).

Record TestStateManager : Type := mkTestStateManager {
  current_state : TestState;
  current_test_plan : option string;
  test_results : list TestResult;
  start_time : option Q;
  end_time : option Q;
  _lock : bool;
  total_tests : Z;
  passed_tests : Z;
  failed_tests : Z;
  skipped_tests : Z
}.

(** [TestStateManager.__init__] *)
Definition new_state_manager : TestStateManager :=
  {| current_state := IDLE; current_test_plan := None; test_results := [];
     start_time := None; end_time := None; _lock := false;
     total_tests := 0; passed_tests := 0; failed_tests := 0;
     skipped_tests := 0 |}.

(** ** The environment

    What the serial port does for one [send_command]: the constructor and
    the write may raise; [in_waiting] is read once, after the settle delay;
    [readline_decoded] is the outcome of [ser.readline().decode('utf-8')],
    the line that the port delivers within its timeout or the exception of
    either call. *)
Record SerialPort : Type := mkSerialPort {
  open_error : option exn;
  write_error : option exn;
  in_waiting : attempt nat;
  readline_decoded : attempt string
}.

(** What an observer of the run can see, in order. *)
Inductive event : Type :=
  | SendCommand (command : string)
  | Written (data : string)
  | Slept (seconds : Q)
  | StateTransition (old_state new_state : TestState)
  | Warning (message : string)
  | ReportWritten (part : string).

(** The world around the runner.  [stop_at n] is the answer of the [n]-th
    call of [stop_event.is_set()], [port n] the behaviour of the port opened
    by the [n]-th [send_command], [clock n] the [n]-th reading of the
    clock; [polls], [calls] and [ticks] count the calls made so far. *)
Record World : Type := mkWorld {
  stop_at : nat -> bool;
  polls : nat;
  port : nat -> SerialPort;
  calls : nat;
  clock : nat -> Q;
  ticks : nat;
  events : list event
}.

(** The attributes of a [TestRunner], with the world it runs in. *)
Record Sys : Type := mkSys {
  test_cases : gmap string (list TestStep);
  command_library : gmap Z CommandEntry;
  user_inputs : gmap string pyval;
  state_manager : TestStateManager;
  world : World
}.

Definition with_manager (f : TestStateManager -> TestStateManager) (s : Sys) : Sys :=
  {| test_cases := test_cases s; command_library := command_library s;
     user_inputs := user_inputs s; state_manager := f (state_manager s);
     world := world s |}.

Definition with_library (f : gmap Z CommandEntry -> gmap Z CommandEntry) (s : Sys) : Sys :=
  {| test_cases := test_cases s; command_library := f (command_library s);
     user_inputs := user_inputs s; state_manager := state_manager s;
     world := world s |}.

Definition with_world (f : World -> World) (s : Sys) : Sys :=
  {| test_cases := test_cases s; command_library := command_library s;
     user_inputs := user_inputs s; state_manager := state_manager s;
     world := f (world s) |}.

Definition set_lock (b : bool) (m : TestStateManager) : TestStateManager :=
  {| current_state := current_state m; current_test_plan := current_test_plan m;
     test_results := test_results m; start_time := start_time m;
     end_time := end_time m; _lock := b;
     total_tests := total_tests m; passed_tests := passed_tests m;
     failed_tests := failed_tests m; skipped_tests := skipped_tests m |}.

Definition set_current_state (st : TestState) (m : TestStateManager) : TestStateManager :=
  {| current_state := st; current_test_plan := current_test_plan m;
     test_results := test_results m; start_time := start_time m;
     end_time := end_time m; _lock := _lock m;
     total_tests := total_tests m; passed_tests := passed_tests m;
     failed_tests := failed_tests m; skipped_tests := skipped_tests m |}.

Definition set_end_time (t : Q) (m : TestStateManager) : TestStateManager :=
  {| current_state := current_state m; current_test_plan := current_test_plan m;
     test_results := test_results m; start_time := start_time m;
     end_time := Some t; _lock := _lock m;
     total_tests := total_tests m; passed_tests := passed_tests m;
     failed_tests := failed_tests m; skipped_tests := skipped_tests m |}.

(** The assignments of [start_test], up to its call of [set_state]. *)
Definition reset_for (test_plan : string) (t : Q) (m : TestStateManager) : TestStateManager :=
  {| current_state := current_state m; current_test_plan := Some test_plan;
     test_results := []; start_time := Some t;
     end_time := end_time m; _lock := _lock m;
     total_tests := 0; passed_tests := 0; failed_tests := 0;
     skipped_tests := 0 |}.

(** [self.test_results.append(result)] and the additions to the counters. *)
Definition appended (r : TestResult) (m : TestStateManager) : TestStateManager :=
  {| current_state := current_state m; current_test_plan := current_test_plan m;
     test_results := test_results m ++ [r]; start_time := start_time m;
     end_time := end_time m; _lock := _lock m;
     total_tests := total_tests m; passed_tests := passed_tests m;
     failed_tests := failed_tests m; skipped_tests := skipped_tests m |}.

Definition counted (total passed failed skipped : Z) (m : TestStateManager) : TestStateManager :=
  {| current_state := current_state m; current_test_plan := current_test_plan m;
     test_results := test_results m; start_time := start_time m;
     end_time := end_time m; _lock := _lock m;
     total_tests := total_tests m + total; passed_tests := passed_tests m + passed;
     failed_tests := failed_tests m + failed;
     skipped_tests := skipped_tests m + skipped |}.

(** The body of [add_result]. *)
Definition record_result (r : TestResult) (m : TestStateManager) : TestStateManager :=
  let m := counted 1 0 0 0 (appended r m) in
  if String.eqb (result r) "Pass" then counted 0 1 0 0 m
  else if String.eqb (result r) "Fail" then counted 0 0 1 0 m
  else counted 0 0 0 1 m.

Definition poll_taken (w : World) : World :=
  {| stop_at := stop_at w; polls := S (polls w); port := port w; calls := calls w;
     clock := clock w; ticks := ticks w; events := events w |}.

Definition call_taken (w : World) : World :=
  {| stop_at := stop_at w; polls := polls w; port := port w; calls := S (calls w);
     clock := clock w; ticks := ticks w; events := events w |}.

Definition tick_taken (w : World) : World :=
  {| stop_at := stop_at w; polls := polls w; port := port w; calls := calls w;
     clock := clock w; ticks := S (ticks w); events := events w |}.

Definition event_added (e : event) (w : World) : World :=
  {| stop_at := stop_at w; polls := polls w; port := port w; calls := calls w;
     clock := clock w; ticks := ticks w; events := events w ++ [e] |}.

(** ** The monad of the runner *)

Inductive outcome (A : Type) : Type :=
  | Ret (a : A) (s : Sys)      (* the call returns [a] *)
  | Raise (e : exn) (s : Sys)  (* the call raises [e] *)
  | Hang (s : Sys).            (* the call blocks for ever *)
Arguments Ret {A} a s.
Arguments Raise {A} e s.
Arguments Hang {A} s.

Definition M (A : Type) : Type := Sys -> outcome A.

Definition ret {A : Type} (a : A) : M A := fun s => Ret a s.

Definition bind {A B : Type} (m : M A) (f : A -> M B) : M B := fun s =>
  match m s with
  | Ret a s' => f a s'
  | Raise e s' => Raise e s'
  | Hang s' => Hang s'
  end.

Declare Scope M_scope.
Delimit Scope M_scope with M.
Bind Scope M_scope with M.
Notation "x ← y ; z" := (bind y (fun x => z))
  (at level 20, y at level 100, z at level 200, only parsing) : M_scope.
Notation "' x ← y ; z" := (bind y (fun x => z))
  (at level 20, x pattern, y at level 100, z at level 200, only parsing) : M_scope.
Notation "x ;; z" := (bind x (fun _ => z))
  (at level 100, z at level 200, only parsing, right associativity) : M_scope.
Open Scope M_scope.

(** The state in which a call ends, however it ends. *)
Definition final {A : Type} (o : outcome A) : Sys :=
  match o with
  | Ret _ s => s
  | Raise _ s => s
  | Hang s => s
  end.

(** The value that a call returns, if it returns. *)
Definition returned {A : Type} (o : outcome A) : option A :=
  match o with
  | Ret a _ => Some a
  | _ => None
  end.

Definition gets {A : Type} (f : Sys -> A) : M A := fun s => Ret (f s) s.
Definition modify (f : Sys -> Sys) : M unit := fun s => Ret tt (f s).
Definition raise {A : Type} (e : exn) : M A := fun s => Raise e s.

Definition lift {A : Type} (a : attempt A) : M A :=
  match a with
  | Ok x => ret x
  | Err e => raise e
  end.

(** [try: body except Exception as e: handler e] *)
Definition try_except {A : Type} (body : M A) (handler : exn -> M A) : M A :=
  fun s =>
    match body s with
    | Ret a s' => Ret a s'
    | Raise e s' => handler e s'
    | Hang s' => Hang s'
    end.

Definition emit (e : event) : M unit := modify (with_world (event_added e)).

(** [time.time()] and [datetime.datetime.now().timestamp()] *)
Definition time_time : M Q := fun s =>
  Ret (clock (world s) (ticks (world s))) (with_world tick_taken s).

(** [time.sleep(seconds)] *)
Definition time_sleep (seconds : Q) : M unit := emit (Slept seconds).

(** [stop_event.is_set()] *)
Definition is_set : M bool := fun s =>
  Ret (stop_at (world s) (polls (world s))) (with_world poll_taken s).

(** [with self._lock: body], for the lock made by [threading.Lock()]: a
    second [acquire] blocks, also in the thread that holds the lock; the
    lock is released when [body] returns or raises. *)
Definition with_lock {A : Type} (body : M A) : M A := fun s =>
  if _lock (state_manager s) then Hang s
  else match body (with_manager (set_lock true) s) with
       | Ret a s' => Ret a (with_manager (set_lock false) s')
       | Raise e s' => Raise e (with_manager (set_lock false) s')
       | Hang s' => Hang s'
       end.

(** ** TestStateManager *)

(** [set_state]: the transition is logged and every registered callback is
    told; an exception of a callback is caught on the spot. *)
Definition set_state (new_state : TestState) : M unit :=
  with_lock (
    old_state ← gets (fun s => current_state (state_manager s));
    modify (with_manager (set_current_state new_state));;
    emit (StateTransition old_state new_state)).

Definition get_state : M TestState :=
  with_lock (gets (fun s => current_state (state_manager s))).

Definition start_test (test_plan : string) : M unit :=
  with_lock (
    t ← time_time;
    modify (with_manager (reset_for test_plan t));;
    set_state RUNNING).

Definition complete_test : M unit :=
  with_lock (
    t ← time_time;
    modify (with_manager (set_end_time t));;
    set_state COMPLETED).

Definition fail_test (error_message : string) : M unit :=
  with_lock (
    t ← time_time;
    modify (with_manager (set_end_time t));;
    set_state FAILED;;
    emit (Warning ("Test failed: " ++ error_message))).

Definition add_result (r : TestResult) : M unit :=
  with_lock (modify (with_manager (record_result r))).

(** Truth value of an optional float, as [if self.start_time] tests it. *)
Definition time_truthy (t : option Q) : bool :=
  match t with
  | Some q => negb (Qeq_bool q 0)
  | None => false
  end.

Definition get_duration : M Q :=
  with_lock (
    m ← gets state_manager;
    if time_truthy (start_time m) && time_truthy (end_time m) then
      ret (default 0%Q (end_time m) - default 0%Q (start_time m))%Q
    else if time_truthy (start_time m) then
      now ← time_time; ret (now - default 0%Q (start_time m))%Q
    else ret 0%Q).

(** The dictionary that [get_statistics] builds; the two times are
    formatted by the report and are kept as they are here. *)
Record Statistics : Type := mkStatistics {
  stat_test_plan : option string;
  stat_state : TestState;
  stat_total : Z;
  stat_passed : Z;
  stat_failed : Z;
  stat_skipped : Z;
  stat_pass_rate : Q;
  stat_duration : Q;
  stat_start_time : option Q;
  stat_end_time : option Q
}.

(** [(passed / total * 100) if total > 0 else 0] *)
Definition pass_rate (passed total : Z) : Q :=
  if (0 <? total)%Z then (inject_Z passed / inject_Z total * 100)%Q else 0%Q.

Definition get_statistics : M Statistics :=
  with_lock (
    duration ← get_duration;
    m ← gets state_manager;
    ret {| stat_test_plan := current_test_plan m;
            stat_state := current_state m;
            stat_total := total_tests m;
            stat_passed := passed_tests m;
            stat_failed := failed_tests m;
            stat_skipped := skipped_tests m;
            stat_pass_rate := pass_rate (passed_tests m) (total_tests m);
            stat_duration := duration;
            stat_start_time := start_time m;
            stat_end_time := end_time m |}).

Definition get_failed_tests : M (list TestResult) :=
  with_lock (
    m ← gets state_manager;
    ret (filter (fun r => result r = "Fail") (test_results m))).

Definition get_passed_tests : M (list TestResult) :=
  with_lock (
    m ← gets state_manager;
    ret (filter (fun r => result r = "Pass") (test_results m))).

(** ** Validator *)

(** [int(x)] of a float: towards zero. *)
Definition Qtrunc (q : Q) : Z :=
  if Qle_bool 0 q then Qfloor q else Qceiling q.

Definition is_valid_timestamp (actual_value : string) : M bool :=
  match PyString.to_int actual_value with
  | Some timestamp =>
      now ← time_time;
      let current_time := Qtrunc now in
      ret (Z.abs (current_time - timestamp) <? 300)%Z
  | None => ret false
  end.

Module Mac.

Definition is_hex (c : ascii) : bool :=
  let n := N_of_ascii c in
  ((48 <=? n) && (n <=? 57) || (65 <=? n) && (n <=? 70)
   || (97 <=? n) && (n <=? 102))%N.

Definition is_sep (c : ascii) : bool :=
  Ascii.eqb c ":"%char || Ascii.eqb c "-"%char.

(** [n] times [[0-9A-Fa-f]{2}[:-]]; the rest of the string. *)
Fixpoint groups (n : nat) (s : string) : option string :=
  match n with
  | O => Some s
  | S n' =>
      match s with
      | String a (String b (String c r)) =>
          if is_hex a && is_hex b && is_sep c then groups n' r else None
      | _ => None
      end
  end.

(** The end of the pattern: [$] is the end of the string, or the place
    before a line feed that ends the string. *)
Definition at_end (s : string) : bool :=
  String.eqb s "" || String.eqb s (String (ascii_of_N 10) "").

(** [re.match(r"^([0-9A-Fa-f]{2}[:-]){5}([0-9A-Fa-f]{2})$", s) is not None] *)
Definition matches (s : string) : bool :=
  match groups 5 s with
  | Some (String a (String b r)) => is_hex a && is_hex b && at_end r
  | _ => false
  end.

End Mac.

Definition is_valid_mac_address (actual_value : string) : bool :=
  Mac.matches actual_value.

(** The rule is a placeholder in the source: a code that is not empty. *)
Definition is_valid_rcode (actual_value : string) : bool :=
  (0 <? String.length actual_value)%nat.

Definition is_type (v : pyval) (name : string) : bool := str_eq_pyval name v.

(** [condition_type in ["asynchrony", "restore", "therapy start", "therapy stop"]] *)
Definition is_deferred (condition_type : pyval) : bool :=
  existsb (is_type condition_type)
    ["asynchrony"; "restore"; "therapy start"; "therapy stop"].

(** [Validator.validate_data] of [Process_Control_20251201.py]. *)
Definition validate_data (condition : gmap string pyval) (actual_value : string) : M bool :=
  let condition_type := dict_get condition "type" in
  if is_type condition_type "equal" then
    let expected_value := dict_get condition "expected" in
    ret (str_eq_pyval actual_value expected_value)
  else if is_type condition_type "between" then
    low ← lift (py_int (dict_get_default condition "low" (PyInt 0)));
    high ← lift (py_int (dict_get_default condition "high" (PyInt 0)));
    try_except
      (v ← lift (py_int (PyStr actual_value));
       ret ((low <=? v)%Z && (v <=? high)%Z))
      (fun e => match e with
                | ValueError => ret false
                | _ => raise e
                end)
  else if is_type condition_type "valid timestamp" then
    is_valid_timestamp actual_value
  else if is_type condition_type "valid format_mac" then
    ret (is_valid_mac_address actual_value)
  else if is_type condition_type "valid format_rcode" then
    ret (is_valid_rcode actual_value)
  else if is_deferred condition_type then
    ret true
  else ret false.

(** The earlier modules, [Conditional.py] and [UART_communication.py], which
    [Process_Control.py] imports. *)
Module Legacy.

(** [Validator.validate_data] of [Conditional.py]: the conversion of the
    value stands outside any handler. *)
Definition validate_data (condition : gmap string pyval) (actual_value : string) : M bool :=
  let condition_type := dict_get condition "type" in
  let expected_value := dict_get condition "expected" in
  if is_type condition_type "equal" then
    ret (str_eq_pyval actual_value expected_value)
  else if is_type condition_type "between" then
    low ← lift (py_int (dict_get_default condition "low" (PyInt 0)));
    high ← lift (py_int (dict_get_default condition "high" (PyInt 0)));
    v ← lift (py_int (PyStr actual_value));
    ret ((low <=? v)%Z && (v <=? high)%Z)
  else if is_type condition_type "timestamp" then
    is_valid_timestamp actual_value
  else if is_type condition_type "valid format_mac" then
    ret (is_valid_mac_address actual_value)
  else ret false.

(** [UARTCommunicator.send_command] of [UART_communication.py]: the port
    is written, and after the pause a bare [return] ends the call; only
    [SerialException] is handled. *)
Definition send_command (command : string) : M (option string) :=
  p ← gets (fun s => port (world s) (calls (world s)));
  modify (with_world call_taken);;
  emit (SendCommand command);;
  try_except
    (lift (from_option Err (Ok tt) (open_error p));;
     lift (from_option Err (Ok tt) (write_error p));;
     emit (Written (command ++ String (ascii_of_N 10) ""));;
     time_sleep 1;;
     ret None)
    (fun e => match e with
              | SerialException => ret None
              | _ => raise e
              end).

End Legacy.

(** ** TestJudge *)

(** The user input that holds the expected value of an identity command. *)
Definition expected_key (command_id : string) : option string :=
  if String.eqb command_id "Get_SN_Number" then Some "device_sn"
  else if String.eqb command_id "Get_FW_Version" then Some "fw_version"
  else if String.eqb command_id "Get_LCM_Version" then Some "sw_version"
  else if String.eqb command_id "Get_WiFi_Version" then Some "wifi_version"
  else None.

Definition get_expected_value (command_id : string) : M pyval :=
  match expected_key command_id with
  | Some key =>
      if negb (String.eqb key "") then
        gets (fun s => dict_get (user_inputs s) key)
      else ret PyNone
  | None => ret PyNone
  end.

Definition set_prefix_value (p : string) (a : option string) (r : TestResult) : TestResult :=
  {| step_name := step_name r; command_id := command_id r; title := title r;
     command_sent := command_sent r; prefix := p; actual_value := a;
     expected_value := expected_value r; result := result r;
     duration := duration r; timestamp := timestamp r;
     error_message := error_message r |}.

Definition set_expected_value (v : pyval) (r : TestResult) : TestResult :=
  {| step_name := step_name r; command_id := command_id r; title := title r;
     command_sent := command_sent r; prefix := prefix r;
     actual_value := actual_value r;
     expected_value := v; result := result r;
     duration := duration r; timestamp := timestamp r;
     error_message := error_message r |}.

Definition set_result (v : string) (r : TestResult) : TestResult :=
  {| step_name := step_name r; command_id := command_id r; title := title r;
     command_sent := command_sent r; prefix := prefix r;
     actual_value := actual_value r;
     expected_value := expected_value r; result := v;
     duration := duration r; timestamp := timestamp r;
     error_message := error_message r |}.

Definition set_error_message (msg : string) (r : TestResult) : TestResult :=
  {| step_name := step_name r; command_id := command_id r; title := title r;
     command_sent := command_sent r; prefix := prefix r;
     actual_value := actual_value r;
     expected_value := expected_value r; result := result r;
     duration := duration r; timestamp := timestamp r;
     error_message := Some msg |}.

Definition set_condition (c : gmap string pyval) (e : CommandEntry) : CommandEntry :=
  {| ID := ID e; Title := Title e; Command_Sends := Command_Sends e;
     Response_Expectation := Response_Expectation e; Condition := Some c |}.

(** Truth value of an optional string, as [if not response] and
    [if actual_value] test it. *)
Definition str_truthy (o : option string) : bool :=
  match o with
  | Some s => negb (String.eqb s "")
  | None => false
  end.

(** [TestJudge.judge_response].  The entry is passed by reference: [ref] is
    the key under which the entry object lives in the command library, and
    the assignment [condition["expected"] = expected] changes the condition
    of that entry when the entry has one (a missing condition is a fresh
    dictionary, which nobody else holds). *)
Definition judge_response (step_name command_id title command_sent : string)
    (ref : Z) (command_entry : CommandEntry) (response : option string)
    (duration : Q) : M TestResult :=
  now ← time_time;
  let result :=
    {| step_name := step_name; command_id := command_id; title := title;
       command_sent := command_sent; prefix := ""; actual_value := Some "";
       expected_value := PyNone; result := "Fail"; duration := duration;
       timestamp := now; error_message := None |} in
  if negb (str_truthy response) then
    ret (set_error_message "No response received" result)
  else
    let '(prefix, actual_value) := classify_data (default "" response) in
    let result := set_prefix_value prefix actual_value result in
    let response_expectation := default "" (Response_Expectation command_entry) in
    if negb (String.eqb prefix response_expectation) then
      ret (set_error_message
              ("Prefix mismatch: expected '" ++ response_expectation
               ++ "', got '" ++ prefix ++ "'")
              (set_result "Fail" result))
    else
      let condition := default ∅ (Condition command_entry) in
      let condition_type := dict_get condition "type" in
      if is_deferred condition_type then
        ret (set_expected_value (dict_get_default condition "status" (PyStr "N/A"))
                (set_result "Pass" result))
      else if str_truthy actual_value then
        expected ← get_expected_value command_id;
        '(result, condition) ←
          (if truthy expected then
             let condition := <["expected" := expected]> condition in
             (if Condition command_entry is Some _ then
                modify (with_library (alter (set_condition condition) ref))
              else ret tt);;
             ret (set_expected_value expected result, condition)
           else ret (result, condition));
        is_valid ← validate_data condition (default "" actual_value);
        let result := set_result (if is_valid then "Pass" else "Fail") result in
        if negb is_valid then
          ret (set_error_message
                  ("Validation failed: expected '" ++ py_str expected
                   ++ "', got '" ++ default "" actual_value ++ "'")
                  result)
        else ret result
      else ret (set_result "Pass" result).

(** ** UARTCommunicator *)

(** [UARTCommunicator.send_command] of [Process_Control_20251201.py]. *)
Definition send_command (command : string) : M (option string) :=
  p ← gets (fun s => port (world s) (calls (world s)));
  modify (with_world call_taken);;
  emit (SendCommand command);;
  try_except
    (lift (from_option Err (Ok tt) (open_error p));;
     lift (from_option Err (Ok tt) (write_error p));;
     emit (Written (command ++ String (ascii_of_N 10) ""));;
     time_sleep 0.5;;
     n ← lift (in_waiting p);
     if (0 <? n)%nat then
       line ← lift (readline_decoded p);
       ret (Some (PyString.strip line))
     else
       emit (Warning ("No response for command: " ++ command));;
       ret None)
    (fun e => ret None).

(** What [send_command] hands back for a port that behaves as [p]. *)
Definition transport_reply (p : SerialPort) : option string :=
  match open_error p, write_error p, in_waiting p, readline_decoded p with
  | None, None, Ok (S _), Ok line => Some (PyString.strip line)
  | _, _, _, _ => None
  end.

(** ** TestRunner *)

(** [wait_times.get(condition_type, 1.0)] *)
Definition wait_time (condition_type : pyval) : Q :=
  if is_type condition_type "equal" then 1.0
  else if is_type condition_type "valid timestamp" then 0.5
  else if is_type condition_type "valid format_mac" then 0.5
  else if is_type condition_type "valid format_rcode" then 0.5
  else if is_type condition_type "asynchrony" then 2.0
  else if is_type condition_type "restore" then 10.0
  else if is_type condition_type "therapy start" then 1.0
  else if is_type condition_type "therapy stop" then 5.0
  else 1.0.

Definition wait_for_response (condition_type : pyval) : M unit :=
  time_sleep (wait_time condition_type).

(** [TestRunner.run_test_task]; [command_number] is the number that the
    step names, which the source turns into text and back. *)
Definition run_test_task (step_name : string) (command_number : Z) : M (option TestResult) :=
  stopped ← is_set;
  if stopped then ret None
  else
    found ← gets (fun s => command_library s !! command_number);
    match found with
    | None =>
        emit (Warning ("Command " ++ pretty command_number ++ " not found"));;
        ret None
    | Some command_entry =>
        let command := Command_Sends command_entry in
        let title := Title command_entry in
        let command_id := ID command_entry in
        let condition := default ∅ (Condition command_entry) in
        let condition_type := dict_get_default condition "type" (PyStr "equal") in
        start_time ← time_time;
        response ← send_command command;
        wait_for_response condition_type;;
        end_time ← time_time;
        let duration := (end_time - start_time)%Q in
        r ← judge_response step_name command_id title command
              command_number command_entry response duration;
        ret (Some r)
    end.

(** One turn of [for step_name, command_number in step.items()]. *)
Definition run_item (item : string * option Z) : M unit :=
  match item.2 with
  | None => ret tt
  | Some command_number =>
      r ← run_test_task item.1 command_number;
      match r with
      | Some r => add_result r
      | None => ret tt
      end
  end.

Fixpoint run_items (items : TestStep) : M unit :=
  match items with
  | [] => ret tt
  | item :: rest => run_item item;; run_items rest
  end.

(** [for step in steps:] with its [break]. *)
Fixpoint run_steps (steps : list TestStep) : M unit :=
  match steps with
  | [] => ret tt
  | step :: rest =>
      stopped ← is_set;
      if stopped then set_state STOPPED
      else run_items step;; run_steps rest
  end.

Definition generate_final_reports : M unit :=
  stats ← get_statistics;
  failed ← get_failed_tests;
  emit (ReportWritten "details");;
  emit (ReportWritten "table");;
  emit (ReportWritten "summary").

(** [TestRunner.run_test_case] *)
Definition run_test_case (test_plan : string) : M unit :=
  cases ← gets test_cases;
  match cases !! test_plan with
  | None => fail_test ("No test cases defined for: " ++ test_plan)
  | Some [] => fail_test ("No steps found for: " ++ test_plan)
  | Some steps =>
      emit (ReportWritten "header");;
      start_test test_plan;;
      try_except
        (run_steps steps;;
         stopped ← is_set;
         if negb stopped then complete_test else ret tt)
        (fun e => fail_test (exn_name e);; raise e);;
      generate_final_reports
  end.

(** ** A sample system *)

Definition between_10_20 : gmap string pyval :=
  <["type" := PyStr "between"]> (<["low" := PyInt 10]> (<["high" := PyInt 20]> ∅)).

Definition quiet_port : SerialPort :=
  {| open_error := None; write_error := None; in_waiting := Ok 0%nat;
     readline_decoded := Ok "" |}.

Definition port_with_line (line : string) : SerialPort :=
  {| open_error := None; write_error := None;
     in_waiting := Ok (String.length line);
     readline_decoded := Ok line |}.

Definition sample_world : World :=
  {| stop_at := fun _ => false; polls := 0; port := fun _ => quiet_port;
     calls := 0; clock := fun n => inject_Z (1700000000 + Z.of_nat n);
     ticks := 0; events := [] |}.

Definition sample_entry : CommandEntry :=
  {| ID := "Get_Battery"; Title := "Battery level"; Command_Sends := "bat";
     Response_Expectation := Some "[bat+ok]"; Condition := Some between_10_20 |}.

Definition sample_sys : Sys :=
  {| test_cases := ∅; command_library := <[8 := sample_entry]> ∅;
     user_inputs := ∅; state_manager := new_state_manager;
     world := sample_world |}.

Definition pass_result (name : string) : TestResult :=
  {| step_name := name; command_id := "Get_Battery"; title := "Battery level";
     command_sent := "bat"; prefix := "[bat+ok]"; actual_value := Some "15";
     expected_value := PyNone; result := "Pass"; duration := 1;
     timestamp := 0; error_message := None |}.

Definition fail_result (name : string) : TestResult :=
  {| step_name := name; command_id := "Get_Battery"; title := "Battery level";
     command_sent := "bat"; prefix := "[bat+ok]"; actual_value := Some "21";
     expected_value := PyNone; result := "Fail"; duration := 1;
     timestamp := 0; error_message := Some "Validation failed: expected 'None', got '21'" |}.

Definition crlf : string := String (ascii_of_N 13) (String (ascii_of_N 10) "").

(** A system whose port answers every command with one line. *)
Definition answering_sys (line : string) : Sys :=
  with_world (fun w =>
    {| stop_at := stop_at w; polls := polls w;
       port := fun _ => port_with_line line; calls := calls w;
       clock := clock w; ticks := ticks w; events := events w |}) sample_sys.

(** ** Vocabulary of the properties *)

Definition lock_free (s : Sys) : Prop := _lock (state_manager s) = false.

(** [s'] is a later state of the run that was in [s]: the world answers as
    before, the counts of calls have not gone down, and the command library
    has the same keys. *)
Record later (s s' : Sys) : Prop := mkLater {
  later_stop : stop_at (world s') = stop_at (world s);
  later_port : port (world s') = port (world s);
  later_clock : clock (world s') = clock (world s);
  later_polls : (polls (world s) <= polls (world s'))%nat;
  later_calls : (calls (world s) <= calls (world s'))%nat;
  later_ticks : (ticks (world s) <= ticks (world s'))%nat;
  later_inputs : user_inputs s' = user_inputs s;
  later_cases : test_cases s' = test_cases s;
  later_keys : dom (command_library s') = dom (command_library s)
}.

(** A computation that leaves the state manager alone. *)
Definition tame {A : Type} (m : M A) : Prop :=
  forall s, later s (final (m s)) /\ state_manager (final (m s)) = state_manager s.

(** The stop event is not set at any poll from [s] up to [s']. *)
Definition unstopped (s s' : Sys) : Prop :=
  forall n, (polls (world s) <= n < polls (world s'))%nat ->
            stop_at (world s) n = false.

(** An item that names a command of the library. *)
Definition known (lib : gmap Z CommandEntry) (item : string * option Z) : bool :=
  match item.2 with
  | Some n => bool_decide (is_Some (lib !! n))
  | None => false
  end.

(** The number of items of [steps] that name a command of the library. *)
Definition executed (lib : gmap Z CommandEntry) (steps : list TestStep) : nat :=
  length (List.filter (known lib) (concat steps)).

(** The commands handed to [send_command], in order. *)
Definition sent (evs : list event) : list string :=
  omap (fun e => match e with SendCommand c => Some c | _ => None end) evs.

(** A step with one item, which names a command of the library. *)
Definition one_known (lib : gmap Z CommandEntry) (step : TestStep) : Prop :=
  exists name n, step = [(name, Some n)] /\ is_Some (lib !! n).

(** A system in which the stop event is set from the [n]-th poll on. *)
Definition stopping_sys (n : nat) : Sys :=
  with_world (fun w =>
    {| stop_at := fun i => (n <=? i)%nat; polls := polls w; port := port w;
       calls := calls w; clock := clock w; ticks := ticks w;
       events := events w |}) sample_sys.

Definition plan_unknown_first : list TestStep :=
  [[("Step1", Some 7)]; [("Step2", Some 8)]].

Definition plan_of_three : list TestStep :=
  [[("Step1", Some 8)]; [("Step2", Some 8)]; [("Step3", Some 8)]].

(** ** Further vocabulary: the state manager *)

(** Calls of [add_result], one after the other. *)
Fixpoint add_results (rs : list TestResult) : M unit :=
  match rs with
  | [] => ret tt
  | r :: rest => add_result r;; add_results rest
  end.

(** The number of results with a given verdict. *)
Definition tally (verdict : string) (rs : list TestResult) : Z :=
  Z.of_nat (length (filter (fun r => result r = verdict) rs)).

(** The number of results that are neither passes nor failures. *)
Definition tally_other (rs : list TestResult) : Z :=
  Z.of_nat (length (filter (fun r => result r <> "Pass" /\ result r <> "Fail") rs)).

(** The counters say what the list of results holds. *)
Definition consistent (m : TestStateManager) : Prop :=
  total_tests m = Z.of_nat (length (test_results m))
  /\ passed_tests m = tally "Pass" (test_results m)
  /\ failed_tests m = tally "Fail" (test_results m)
  /\ skipped_tests m = tally_other (test_results m).

(** ** Further vocabulary: strings *)

(** [" " in s] *)
Fixpoint has_space (s : string) : bool :=
  match s with
  | EmptyString => false
  | String c r => Ascii.eqb c " "%char || has_space r
  end.

(** The strings of a list, one after the other. *)
Fixpoint join (parts : list string) : string :=
  match parts with
  | [] => ""
  | p :: rest => p ++ join rest
  end.

(** One group of an address: two characters and a separator. *)
Definition mac_group (g : ascii * ascii * ascii) : string :=
  String g.1.1 (String g.1.2 (String g.2 "")).

Definition mac_group_ok (g : ascii * ascii * ascii) : bool :=
  Mac.is_hex g.1.1 && Mac.is_hex g.1.2 && Mac.is_sep g.2.

Definition line_feed : string := String (ascii_of_N 10) "".

(** ** Further vocabulary: the judge *)

(** The value that [get_expected_value] hands back for a command. *)
Definition expected_for (inputs : gmap string pyval) (command_id : string) : pyval :=
  match expected_key command_id with
  | Some key => dict_get inputs key
  | None => PyNone
  end.

(** The result of a reply that went through classification: its verdict,
    and its message when the verdict is a failure. *)
Definition judged (sn cid ti cs r : string) (d now : Q) (expected : pyval)
    (verdict : bool) (message : string) : TestResult :=
  {| step_name := sn; command_id := cid; title := ti; command_sent := cs;
     prefix := (classify_data r).1; actual_value := (classify_data r).2;
     expected_value := expected;
     result := if verdict then "Pass" else "Fail";
     duration := d; timestamp := now;
     error_message := if verdict then None else Some message |}.

(** The state in which the judge calls the validator: the clock was read
    once, and the expected value of the user, when there is one, has been
    written into the condition of the entry. *)
Definition before_validation (ref : Z) (e : CommandEntry) (expected : pyval)
    (s : Sys) : Sys :=
  let s1 := with_world tick_taken s in
  if truthy expected then
    match Condition e with
    | Some c => with_library (alter (set_condition (<["expected" := expected]> c)) ref) s1
    | None => s1
    end
  else s1.

(** The condition that the judge hands to the validator. *)
Definition condition_for (e : CommandEntry) (expected : pyval) : gmap string pyval :=
  if truthy expected then <["expected" := expected]> (default ∅ (Condition e))
  else default ∅ (Condition e).

Definition restore_entry : CommandEntry :=
  {| ID := "Restore"; Title := "Restore defaults"; Command_Sends := "restore";
     Response_Expectation := Some "[restore+ok]";
     Condition := Some (<["type" := PyStr "restore"]> ∅) |}.

Definition serial_condition : gmap string pyval :=
  <["type" := PyStr "equal"]> (<["expected" := PyStr "placeholder"]> ∅).

Definition serial_entry : CommandEntry :=
  {| ID := "Get_SN_Number"; Title := "Serial number"; Command_Sends := "sn";
     Response_Expectation := Some "[sn+ok]"; Condition := Some serial_condition |}.

(** A system whose user inputs name the serial number of the device. *)
Definition serial_sys : Sys :=
  {| test_cases := ∅; command_library := <[3 := serial_entry]> ∅;
     user_inputs := <["device_sn" := PyStr "SN0000000001A"]> ∅;
     state_manager := new_state_manager; world := sample_world |}.

(** ** Further vocabulary: the transport *)

Definition starts_with (sp : ascii -> bool) (s : string) : bool :=
  match s with
  | String c _ => sp c
  | EmptyString => false
  end.

Fixpoint ends_with (sp : ascii -> bool) (s : string) : bool :=
  match s with
  | EmptyString => false
  | String c EmptyString => sp c
  | String _ r => ends_with sp r
  end.

(** ** Further vocabulary: the loop *)

(** [m'] holds the results of [m] and, behind them, new ones that are all
    passes or failures; the counters moved by the numbers of the new
    results, the counter of skipped steps and the times did not move. *)
Definition extends_results (m m' : TestStateManager) : Prop :=
  exists new,
    test_results m' = (test_results m ++ new)%list
    /\ Forall (fun r => result r = "Pass" \/ result r = "Fail") new
    /\ total_tests m' = total_tests m + Z.of_nat (length new)
    /\ passed_tests m' = passed_tests m + tally "Pass" new
    /\ failed_tests m' = failed_tests m + tally "Fail" new
    /\ skipped_tests m' = skipped_tests m
    /\ start_time m' = start_time m
    /\ end_time m' = end_time m
    /\ current_test_plan m' = current_test_plan m.

(** The bounds of a range condition convert to integers. *)
Definition condition_ok (c : gmap string pyval) : Prop :=
  c !! "type" = Some (PyStr "between") ->
  (exists low, py_int (dict_get_default c "low" (PyInt 0)) = Ok low)
  /\ (exists high, py_int (dict_get_default c "high" (PyInt 0)) = Ok high).

Definition library_ok (lib : gmap Z CommandEntry) : Prop :=
  forall n e c, lib !! n = Some e -> Condition e = Some c -> condition_ok c.

(** The number of items of a step that name a command. *)
Definition named (items : TestStep) : nat :=
  length (List.filter (fun item => bool_decide (is_Some item.2)) items).

Definition bad_bound_entry : CommandEntry :=
  {| ID := "Get_Battery"; Title := "Battery level"; Command_Sends := "bat";
     Response_Expectation := Some "[bat+ok]";
     Condition := Some (<["type" := PyStr "between"]> (<["low" := PyStr "ten"]> ∅)) |}.

(** A system whose library holds a range with a bound that is no number, and
    whose port answers with a value. *)
Definition bad_bound_sys : Sys :=
  with_library (fun _ => <[5 := bad_bound_entry]> ∅) (answering_sys "[bat+ok] 15").

(** ** The earlier runner and validators *)

(** [p] is a prefix of [s]: [s.startswith(p)]. *)
Fixpoint is_prefix (p s : string) : bool :=
  match p, s with
  | EmptyString, _ => true
  | String a p', String b s' => Ascii.eqb a b && is_prefix p' s'
  | String _ _, EmptyString => false
  end.

(** [sub in s] *)
Fixpoint contains (sub s : string) : bool :=
  is_prefix sub s
  || match s with
     | EmptyString => false
     | String _ r => contains sub r
     end.

Module LegacyRunner.

(** [TestRunner.get_user_defined_condition] of [Process_Control.py];
    [inputs] is the dictionary [self.user_inputs]. *)
Definition get_user_defined_condition (inputs : gmap string pyval)
    (command_id : string) : option (gmap string pyval) :=
  if String.eqb command_id "Get_SN_Number" then
    Some (<["type" := PyStr "equal"]> (<["expected" := dict_get inputs "device_sn"]> ∅))
  else if String.eqb command_id "Get_FW_Version" then
    Some (<["type" := PyStr "equal"]> (<["expected" := dict_get inputs "fw_version"]> ∅))
  else if String.eqb command_id "Get_LCM_Version" then
    Some (<["type" := PyStr "equal"]> (<["expected" := dict_get inputs "sw_version"]> ∅))
  else if String.eqb command_id "Get_WiFi_Version" then
    Some (<["type" := PyStr "equal"]> (<["expected" := dict_get inputs "wifi_version"]> ∅))
  else None.

(** The validators of [Conditional.py] for deferred conditions: each
    answers whether a marker occurs in the response (and prints and logs
    the answer, which is left out). *)
Definition validate_asynchrony (response : string) : bool :=
  contains "[db_dump+ok]" response.

Definition validate_restore (response expected_status : string) : bool :=
  contains expected_status response.

Definition validate_therapy_start (response : string) (duration : Z) : bool :=
  contains "[therapy on+ok]" response.

Definition validate_therapy_stop (response expected_status : string) : bool :=
  contains expected_status response.

End LegacyRunner.

(** ** Loading the user inputs *)

(** What opening and parsing the file of user inputs gives: no file, a file
    that is no YAML, or the parsed document, a mapping, or null for an empty
    file (a document that is a list or a scalar is left out). *)
Inductive yaml_file : Type :=
  | Missing
  | Malformed
  | Parsed (data : option (gmap string pyval)).

Definition required_keys : list string :=
  ["selected_test_plan"; "device_sn"; "fw_version"; "sw_version"; "wifi_version"].

(** [TestRunner.load_user_inputs], on what the file gives.  The handler
    takes a missing file, a parse error and the [ValueError] of a missing
    key; the [TypeError] of [key in None] is not among them. *)
Definition load_user_inputs (file : yaml_file) : attempt (option (gmap string pyval)) :=
  match file with
  | Missing => Ok None
  | Malformed => Ok None
  | Parsed None => Err TypeError
  | Parsed (Some data) =>
      if forallb (fun key =>
                    match data !! key with
                    | Some v => truthy v
                    | None => false
                    end) required_keys
      then Ok (Some data)
      else Ok None
  end.

(** ** The connection handshake of [Serial_Port_Monitoring.py] *)

Module Monitor.

Definition sends_command : string := "time_tick".
Definition retry_times : nat := 5.

(** [re.match(connected_response_pattern, response)]: the pattern is the
    literal [[time_tick+ok]] followed by any run of white space, empty
    included, and [re.match] anchors it at the start only. *)
Definition connected_response (response : string) : bool :=
  is_prefix "[time_tick+ok]" response.

(** What the port does during one attempt: whether [ser.write] raises, and
    the outcomes of the reads made before the response timeout runs out,
    each the decoded line or the exception of [in_waiting], [readline] or
    [decode]. *)
Record Attempt : Type := {
  write_failure : option exn;
  lines : list (attempt string)
}.

Inductive attempt_end : Type :=
  | Connected
  | Retry
  | Crashed (e : exn).

(** The handler of the attempt takes [serial.SerialException] only. *)
Definition handled (e : exn) : attempt_end :=
  match e with
  | SerialException => Retry
  | _ => Crashed e
  end.

(** The polling loop of one attempt. *)
Fixpoint poll (reads : list (attempt string)) : attempt_end :=
  match reads with
  | [] => Retry
  | Err e :: _ => handled e
  | Ok line :: rest =>
      let response := PyString.strip line in
      if String.eqb response ">" || String.eqb response "" then poll rest
      else if connected_response response then Connected
      else poll rest
  end.

Definition attempt_end_of (a : Attempt) : attempt_end :=
  match write_failure a with
  | Some e => handled e
  | None => poll (lines a)
  end.

(** What a call of [establish_uart_connection] has done when it ends. *)
Record Handshake : Type := {
  outcome_of : attempt bool;
  write_calls : nat;
  connection_sets : nat;
  delays : nat
}.

(** The attempts [i], [i + 1], ... of the [for] loop, [n] of them left. *)
Fixpoint attempts_from (n i : nat) (port : nat -> Attempt) (h : Handshake) : Handshake :=
  match n with
  | O =>
      {| outcome_of := Ok false; write_calls := write_calls h;
         connection_sets := connection_sets h; delays := delays h |}
  | S n' =>
      match attempt_end_of (port i) with
      | Connected =>
          {| outcome_of := Ok true; write_calls := S (write_calls h);
             connection_sets := S (connection_sets h); delays := delays h |}
      | Retry =>
          attempts_from n' (S i) port
            {| outcome_of := outcome_of h; write_calls := S (write_calls h);
               connection_sets := connection_sets h; delays := S (delays h) |}
      | Crashed e =>
          {| outcome_of := Err e; write_calls := S (write_calls h);
             connection_sets := connection_sets h; delays := delays h |}
      end
  end.

(** [establish_uart_connection(ser, connection_event)] *)
Definition establish_uart_connection (port : nat -> Attempt) : Handshake :=
  attempts_from retry_times 0 port
    {| outcome_of := Ok false; write_calls := 0; connection_sets := 0; delays := 0 |}.

(** A port that answers the third command, after a prompt and an echo. *)
Definition third_time (i : nat) : Attempt :=
  match i with
  | 0%nat => {| write_failure := None; lines := [] |}
  | 1%nat => {| write_failure := Some SerialException; lines := [] |}
  | _ => {| write_failure := None;
            lines := [Ok ">"; Ok "time_tick"; Ok "  [time_tick+ok] 1700000000 "] |}
  end.

Definition silent (i : nat) : Attempt :=
  {| write_failure := None; lines := [Ok ">"; Ok ""] |}.

End Monitor.

(** ** The commands of a run *)

(** The two libraries send the same command under every key. *)
Definition same_commands (lib lib' : gmap Z CommandEntry) : Prop :=
  forall n, Command_Sends <$> lib' !! n = Command_Sends <$> lib !! n.

(** A computation that hands nothing to [send_command] and leaves the
    commands of the library as they are. *)
Definition quiet {A : Type} (m : M A) : Prop :=
  forall s,
    sent (events (world (final (m s)))) = sent (events (world s))
    /\ same_commands (command_library s) (command_library (final (m s))).

(** The commands that the items name in the library, in the order of the
    items. *)
Definition commands (lib : gmap Z CommandEntry) (items : TestStep) : list string :=
  omap (fun item : string * option Z =>
          match item.2 with
          | Some n => Command_Sends <$> lib !! n
          | None => None
          end) items.
(** * Properties *)

(** ** Samples *)

Example to_int_samples :
  map PyString.to_int ["15"; " +5 "; "-5"; "1_0"; "007"; "abc"; ""; "- 5"; "1__0"; "_1"; "1_"; "5.0"]
  = [Some 15; Some 5; Some (-5); Some 10; Some 7; None; None; None; None; None; None; None].
Proof. reflexivity. Qed.

Example classify_samples :
  map classify_data ["OK 5"; "OK"; ""; " "; "OK  5"; "a b c"]
  = [("OK", Some "5"); ("OK", None); ("", None); ("", Some ""); ("OK", Some " 5"); ("a", Some "b c")].
Proof. reflexivity. Qed.

Lemma partition_space_join (s p a : string) :
  PyString.partition_space s = Some (p, a) -> s = p ++ " " ++ a.
Proof.
  revert p a. induction s as [|c r IH]; intros p a; simpl.
  - discriminate.
  - destruct (Ascii.eqb_spec c " "%char) as [->|Hc].
    + intros [= <- <-]. reflexivity.
    + destruct (PyString.partition_space r) as [[p' a']|] eqn:E; [|discriminate].
      intros [= <- <-].
      change (String c r = String c (p' ++ " " ++ a')).
      f_equal. now apply IH.
Qed.

(** C5. For every raw reply, [classify_data] returns a prefix and an optional
    value such that the reply is the prefix alone when the value is absent,
    and the prefix, one space and the value otherwise; the empty reply has
    the empty prefix and no value. *)
Theorem classify_data_roundtrip (raw : string) :
  (match classify_data raw with
   | (prefix, None) => raw = prefix
   | (prefix, Some actual_value) => raw = prefix ++ " " ++ actual_value
   end)
  /\ classify_data "" = ("", None).
Proof.
  split; [|reflexivity].
  unfold classify_data, PyString.split_space_1.
  destruct (PyString.partition_space raw) as [[p a]|] eqn:E.
  - now apply partition_space_join.
  - reflexivity.
Qed.


Example mac_samples :
  map is_valid_mac_address
    ["AA:BB:CC:DD:EE:FF"; "aa-bb-cc-dd-ee-ff"; "AA:BB:CC:DD:EE"; "GG:BB:CC:DD:EE:FF"]
  = [true; true; false; false].
Proof. reflexivity. Qed.

(** ** Outcomes *)

Lemma ret_final {A : Type} (o : outcome A) (a : A) :
  returned o = Some a -> o = Ret a (final o).
Proof. destruct o; cbn; congruence. Qed.

(** ** The lock of the state manager *)

(** A method that takes the lock blocks when the lock is held. *)
Lemma with_lock_held {A : Type} (body : M A) (s : Sys) :
  _lock (state_manager s) = true -> with_lock body s = Hang s.
Proof. intros H. unfold with_lock. now rewrite H. Qed.

(** A method that takes the lock and then calls another one that takes it
    blocks in the inner call. *)
Lemma with_lock_nested {A B : Type} (inner : M A) (k : A -> M B) (s : Sys) :
  _lock (state_manager s) = false ->
  with_lock (bind (with_lock inner) k) s = Hang (with_manager (set_lock true) s).
Proof. intros H. unfold with_lock at 1. rewrite H. reflexivity. Qed.

Lemma set_state_free (new_state : TestState) (s : Sys) :
  _lock (state_manager s) = false ->
  set_state new_state s
  = Ret tt (with_manager (set_lock false)
             (with_world (event_added
                            (StateTransition (current_state (state_manager s)) new_state))
                (with_manager (set_current_state new_state)
                   (with_manager (set_lock true) s)))).
Proof. intros H. unfold set_state, with_lock. rewrite H. reflexivity. Qed.

Lemma add_result_free (r : TestResult) (s : Sys) :
  _lock (state_manager s) = false ->
  add_result r s
  = Ret tt (with_manager (set_lock false)
             (with_manager (record_result r) (with_manager (set_lock true) s))).
Proof. intros H. unfold add_result, with_lock. rewrite H. reflexivity. Qed.

(** [start_test] blocks in its call of [set_state], after its assignments. *)
Lemma start_test_blocks (test_plan : string) (s : Sys) :
  _lock (state_manager s) = false ->
  start_test test_plan s
  = Hang (with_manager (reset_for test_plan (clock (world s) (ticks (world s))))
            (with_world tick_taken (with_manager (set_lock true) s))).
Proof. intros H. unfold start_test, with_lock at 1. rewrite H. reflexivity. Qed.

Lemma complete_test_blocks (s : Sys) : exists s', complete_test s = Hang s'.
Proof.
  unfold complete_test, with_lock at 1.
  destruct (_lock (state_manager s)); eexists; reflexivity.
Qed.

Lemma fail_test_blocks (msg : string) (s : Sys) : exists s', fail_test msg s = Hang s'.
Proof.
  unfold fail_test, with_lock at 1.
  destruct (_lock (state_manager s)); eexists; reflexivity.
Qed.

(** The counters after three passes and one failure, and the rate that the
    expression of [get_statistics] gives for them. *)
Example three_passes_one_failure :
  let m := record_result (fail_result "Step4")
             (record_result (pass_result "Step3")
                (record_result (pass_result "Step2")
                   (record_result (pass_result "Step1") new_state_manager))) in
  (total_tests m, passed_tests m, failed_tests m, skipped_tests m) = (4, 3, 1, 0)
  /\ Qred (pass_rate (passed_tests m) (total_tests m)) = 75%Q
  /\ pass_rate 0 0 = 0%Q.
Proof. repeat split. Qed.

Lemma pass_rate_spec (passed total : Z) :
  ((0 < total)%Z ->
   (pass_rate passed total == inject_Z passed / inject_Z total * 100)%Q)
  /\ (total = 0%Z -> pass_rate passed total = 0%Q).
Proof.
  unfold pass_rate. split.
  - intros H. destruct (Z.ltb_spec 0 total); [reflexivity | lia].
  - intros ->. reflexivity.
Qed.

(** C9. [get_statistics] takes the lock and calls [get_duration], which
    takes it again: the call never returns, whatever the counters are, so
    no pass rate is ever handed out. *)
Theorem get_statistics_never_returns (s : Sys) :
  exists s', get_statistics s = Hang s'.
Proof.
  unfold get_statistics, get_duration, with_lock at 1.
  destruct (_lock (state_manager s)); eexists; reflexivity.
Qed.

(** ** Starting a run *)




(** ** Conditions *)

(** The validator of [Process_Control_20251201.py] on a range with integer
    bounds: the value is converted, a failed conversion gives [False], and
    both ends are included. *)
Lemma validate_data_between (condition : gmap string pyval) (low high : Z)
    (actual_value : string) (s : Sys) :
  condition !! "type" = Some (PyStr "between") ->
  condition !! "low" = Some (PyInt low) ->
  condition !! "high" = Some (PyInt high) ->
  validate_data condition actual_value s
  = Ret (match PyString.to_int actual_value with
         | Some v => (low <=? v)%Z && (v <=? high)%Z
         | None => false
         end) s.
Proof.
  intros Ht Hl Hh. unfold validate_data, dict_get, dict_get_default.
  rewrite Ht, Hl, Hh. cbn.
  unfold bind, try_except, lift, py_int. cbn.
  destruct (PyString.to_int actual_value); reflexivity.
Qed.

Lemma validate_data_between_iff (condition : gmap string pyval) (low high : Z)
    (actual_value : string) (s : Sys) :
  condition !! "type" = Some (PyStr "between") ->
  condition !! "low" = Some (PyInt low) ->
  condition !! "high" = Some (PyInt high) ->
  exists b, validate_data condition actual_value s = Ret b s
    /\ (b = true <->
        exists v, PyString.to_int actual_value = Some v /\ (low <= v <= high)%Z).
Proof.
  intros Ht Hl Hh. eexists. split.
  { apply (validate_data_between condition low high); assumption. }
  destruct (PyString.to_int actual_value) as [v|].
  - rewrite andb_true_iff, !Z.leb_le. split.
    + intros [? ?]. exists v. auto.
    + intros (v' & Hv & ? & ?). injection Hv as <-. auto.
  - split; [discriminate|]. intros (v & Hv & _). discriminate.
Qed.

Example between_samples (s : Sys) :
  map (fun a => validate_data between_10_20 a s) ["15"; "20"; "21"; "abc"]
  = [Ret true s; Ret true s; Ret false s; Ret false s].
Proof. reflexivity. Qed.

(** C4. The validator of [Conditional.py] converts the value outside any
    handler: on a value that is no integer the call raises [ValueError],
    where the claim asks for [False]. *)
Theorem legacy_between_raises (s : Sys) :
  Legacy.validate_data between_10_20 "abc" s = Raise ValueError s.
Proof. reflexivity. Qed.

(** ** Transport *)

(** [send_command] of [Process_Control_20251201.py] always returns: every
    exception ends in [None]. *)
Lemma send_command_returns (command : string) (s : Sys) :
  exists s', send_command command s
             = Ret (transport_reply (port (world s) (calls (world s)))) s'
    /\ state_manager s' = state_manager s
    /\ command_library s' = command_library s
    /\ user_inputs s' = user_inputs s
    /\ test_cases s' = test_cases s
    /\ stop_at (world s') = stop_at (world s)
    /\ port (world s') = port (world s)
    /\ clock (world s') = clock (world s)
    /\ polls (world s') = polls (world s)
    /\ ticks (world s') = ticks (world s)
    /\ calls (world s') = S (calls (world s))
    /\ sent (events (world s')) = (sent (events (world s)) ++ [command])%list.
Proof.
  unfold send_command, transport_reply, bind, try_except, gets, modify, emit,
    time_sleep, lift, ret, raise.
  destruct (port (world s) (calls (world s))) as [[oe|] [we|] [[|n]|ie] [line|re]];
    cbn; eexists; (split; [reflexivity|]); cbn; repeat split;
    unfold sent; rewrite ?omap_app; cbn; rewrite ?app_nil_r; reflexivity.
Qed.

(** The read is guarded by [in_waiting]: when nothing has arrived by the end
    of the settle delay the call returns [None] at once, whatever the port
    would deliver within its timeout. *)
Lemma send_command_nothing_waiting (command : string) (s : Sys) :
  in_waiting (port (world s) (calls (world s))) = Ok 0%nat ->
  returned (send_command command s) = Some None.
Proof.
  intros H. destruct (send_command_returns command s) as (s' & E & _).
  rewrite E. unfold transport_reply. rewrite H.
  destruct (open_error (port (world s) (calls (world s)))); [reflexivity|].
  destruct (write_error (port (world s) (calls (world s)))); reflexivity.
Qed.

(** C6. [send_command] of [UART_communication.py] ends in a bare [return]
    after its pause: the line that the device sent is lost, where the
    version of [Process_Control_20251201.py] reads and returns it. *)
Theorem legacy_send_command_loses_reply :
  let s := answering_sys ("[time_tick+ok]" ++ crlf) in
  (exists s', Legacy.send_command "time_tick" s = Ret None s')
  /\ (exists s', send_command "time_tick" s = Ret (Some "[time_tick+ok]") s').
Proof. split; eexists; reflexivity. Qed.

(** ** Judging a reply *)

(** Without a reply (none, or an empty line) the verdict is a failure with
    the message of the source. *)
Lemma judge_no_response (sn cid ti cs : string) (ref : Z) (e : CommandEntry)
    (response : option string) (d : Q) (s : Sys) :
  str_truthy response = false ->
  judge_response sn cid ti cs ref e response d s
  = Ret {| step_name := sn; command_id := cid; title := ti; command_sent := cs;
           prefix := ""; actual_value := Some ""; expected_value := PyNone;
           result := "Fail"; duration := d;
           timestamp := clock (world s) (ticks (world s));
           error_message := Some "No response received" |}
        (with_world tick_taken s).
Proof.
  intros H. unfold judge_response, bind, time_time. rewrite H. reflexivity.
Qed.

Lemma judge_prefix_mismatch (sn cid ti cs : string) (ref : Z) (e : CommandEntry)
    (r : string) (d : Q) (s : Sys) :
  r <> "" ->
  (classify_data r).1 <> default "" (Response_Expectation e) ->
  judge_response sn cid ti cs ref e (Some r) d s
  = Ret {| step_name := sn; command_id := cid; title := ti; command_sent := cs;
           prefix := (classify_data r).1; actual_value := (classify_data r).2;
           expected_value := PyNone; result := "Fail"; duration := d;
           timestamp := clock (world s) (ticks (world s));
           error_message :=
             Some ("Prefix mismatch: expected '"
                   ++ default "" (Response_Expectation e)
                   ++ "', got '" ++ (classify_data r).1 ++ "'") |}
        (with_world tick_taken s).
Proof.
  intros Hr Hp. unfold judge_response, bind, time_time. cbn.
  destruct (String.eqb_spec r "") as [|_]; [contradiction|]. cbn.
  destruct (classify_data r) as [p a]. cbn in *.
  destruct (String.eqb_spec p (default "" (Response_Expectation e))) as [|_];
    [contradiction|].
  reflexivity.
Qed.

(** C10. A reply whose prefix is the expected one and which carries no
    value (none, or an empty one) passes when the condition is not a
    deferred one: the verdict is [Pass] whatever the condition says, and the
    call ends after reading the clock once, with the command library as it
    was, so the condition was never looked at. *)
Theorem payload_free_reply_passes (sn cid ti cs : string) (ref : Z)
    (e : CommandEntry) (r : string) (d : Q) (s : Sys) :
  r <> "" ->
  (classify_data r).1 = default "" (Response_Expectation e) ->
  str_truthy (classify_data r).2 = false ->
  is_deferred (dict_get (default ∅ (Condition e)) "type") = false ->
  judge_response sn cid ti cs ref e (Some r) d s
  = Ret {| step_name := sn; command_id := cid; title := ti; command_sent := cs;
           prefix := (classify_data r).1; actual_value := (classify_data r).2;
           expected_value := PyNone; result := "Pass"; duration := d;
           timestamp := clock (world s) (ticks (world s));
           error_message := None |}
        (with_world tick_taken s).
Proof.
  intros Hr Hp Ha Hd. unfold judge_response, bind, time_time. cbn.
  destruct (String.eqb_spec r "") as [|_]; [contradiction|]. cbn.
  destruct (classify_data r) as [p a]. cbn in *. subst p.
  rewrite String.eqb_refl. cbn. rewrite Hd, Ha. reflexivity.
Qed.

Lemma payload_free_reply_passes_witness :
  exists r s',
    judge_response "Step1" "Get_Battery" "Battery level" "bat" 8 sample_entry
      (Some "[bat+ok]") 1 sample_sys = Ret r s'
    /\ result r = "Pass" /\ expected_value r = PyNone
    /\ command_library s' = command_library sample_sys.
Proof.
  eexists _, _. split.
  - apply (payload_free_reply_passes "Step1" "Get_Battery" "Battery level" "bat"
             8 sample_entry "[bat+ok]" 1 sample_sys);
      [discriminate | reflexivity | reflexivity | reflexivity].
  - repeat split.
Defined.

(** ** Computations that leave the state manager alone *)

Lemma later_refl (s : Sys) : later s s.
Proof. split; auto. Qed.

Lemma later_trans (s1 s2 s3 : Sys) : later s1 s2 -> later s2 s3 -> later s1 s3.
Proof.
  intros [] []. split; try congruence; lia.
Qed.

Lemma tame_ret {A : Type} (a : A) : tame (ret a).
Proof. intros s. split; [apply later_refl | reflexivity]. Qed.

Lemma tame_raise {A : Type} (e : exn) : tame (@raise A e).
Proof. intros s. split; [apply later_refl | reflexivity]. Qed.

Lemma tame_gets {A : Type} (f : Sys -> A) : tame (gets f).
Proof. intros s. split; [apply later_refl | reflexivity]. Qed.

Lemma tame_lift {A : Type} (a : attempt A) : tame (lift a).
Proof. destruct a; [apply tame_ret | apply tame_raise]. Qed.

Lemma tame_bind {A B : Type} (m : M A) (f : A -> M B) :
  tame m -> (forall a, tame (f a)) -> tame (bind m f).
Proof.
  intros Hm Hf s. unfold bind. specialize (Hm s).
  destruct (m s) as [a s1|e s1|s1]; cbn in *; auto.
  destruct Hm as [L1 E1]. destruct (Hf a s1) as [L2 E2].
  split; [eapply later_trans; eauto | congruence].
Qed.

Lemma tame_try_except {A : Type} (body : M A) (handler : exn -> M A) :
  tame body -> (forall e, tame (handler e)) -> tame (try_except body handler).
Proof.
  intros Hm Hf s. unfold try_except. specialize (Hm s).
  destruct (body s) as [a s1|e s1|s1]; cbn in *; auto.
  destruct Hm as [L1 E1]. destruct (Hf e s1) as [L2 E2].
  split; [eapply later_trans; eauto | congruence].
Qed.

Lemma tame_emit (e : event) : tame (emit e).
Proof. intros s. split; [split; cbn; auto | reflexivity]. Qed.

Lemma tame_time_time : tame time_time.
Proof. intros s. split; [split; cbn; auto | reflexivity]. Qed.

Lemma tame_time_sleep (q : Q) : tame (time_sleep q).
Proof. apply tame_emit. Qed.

Lemma tame_is_set : tame is_set.
Proof. intros s. split; [split; cbn; auto | reflexivity]. Qed.

Lemma tame_call_taken : tame (modify (with_world call_taken)).
Proof. intros s. split; [split; cbn; auto | reflexivity]. Qed.

Lemma tame_alter (f : CommandEntry -> CommandEntry) (ref : Z) :
  tame (modify (with_library (alter f ref))).
Proof.
  intros s. split; [split; cbn; auto | reflexivity].
  apply dom_alter_L.
Qed.

Create HintDb tame.
#[local] Hint Resolve tame_ret tame_raise tame_gets tame_lift tame_emit
  tame_time_time tame_time_sleep tame_is_set tame_call_taken tame_alter : tame.
#[local] Hint Extern 2 (tame (bind _ _)) => apply tame_bind; [|intros] : tame.
#[local] Hint Extern 2 (tame (try_except _ _)) =>
  apply tame_try_except; [|intros] : tame.
#[local] Hint Extern 3 (tame (if ?b then _ else _)) => destruct b : tame.
#[local] Hint Extern 3 (tame (match ?x with _ => _ end)) => destruct x : tame.

Lemma tame_is_valid_timestamp (a : string) : tame (is_valid_timestamp a).
Proof. unfold is_valid_timestamp. auto with tame. Qed.

Lemma tame_validate_data (c : gmap string pyval) (a : string) :
  tame (validate_data c a).
Proof.
  unfold validate_data. pose proof tame_is_valid_timestamp.
  repeat (destruct (is_type _ _); [auto 10 with tame|]).
  auto with tame.
Qed.

Lemma tame_get_expected_value (cid : string) : tame (get_expected_value cid).
Proof. unfold get_expected_value. auto 10 with tame. Qed.

Lemma tame_judge_response (sn cid ti cs : string) (ref : Z) (e : CommandEntry)
    (response : option string) (d : Q) :
  tame (judge_response sn cid ti cs ref e response d).
Proof.
  unfold judge_response.
  pose proof tame_validate_data. pose proof tame_get_expected_value.
  apply tame_bind; [auto with tame|]. intros now.
  destruct (negb (str_truthy response)); [auto with tame|].
  destruct (classify_data _) as [p a].
  destruct (negb _); [auto with tame|].
  destruct (is_deferred _); [auto with tame|].
  destruct (str_truthy a); [|auto with tame].
  apply tame_bind; [auto|]. intros expected.
  apply tame_bind.
  - destruct (truthy expected); [|auto with tame].
    apply tame_bind; [|auto with tame].
    destruct (Condition e); auto with tame.
  - intros [r c]. apply tame_bind; [auto|]. intros v.
    destruct (negb v); auto with tame.
Qed.

Lemma tame_send_command (command : string) : tame (send_command command).
Proof.
  intros s. destruct (send_command_returns command s) as (s' & E & F).
  rewrite E. cbn. destruct F as (? & ? & ? & ? & ? & ? & ? & ? & ? & ? & ?).
  split; [split; first [congruence | lia] | auto].
Qed.

Lemma tame_run_test_task (name : string) (n : Z) : tame (run_test_task name n).
Proof.
  unfold run_test_task, wait_for_response.
  pose proof tame_send_command. pose proof tame_judge_response.
  auto 12 with tame.
Qed.

(** ** One item of a step *)

(** With the stop event clear and the command in the library, the task
    sends the command, waits, and hands the reply of the port to the
    judge. *)
Lemma run_test_task_found (name : string) (n : Z) (e : CommandEntry) (s : Sys) :
  stop_at (world s) (polls (world s)) = false ->
  command_library s !! n = Some e ->
  exists s2,
    run_test_task name n s
    = bind (judge_response name (ID e) (Title e) (Command_Sends e) n e
              (transport_reply (port (world s) (calls (world s))))
              (clock (world s) (S (ticks (world s)))
               - clock (world s) (ticks (world s)))%Q)
           (fun r => ret (Some r)) s2
    /\ state_manager s2 = state_manager s
    /\ command_library s2 = command_library s
    /\ user_inputs s2 = user_inputs s
    /\ clock (world s2) = clock (world s)
    /\ ticks (world s2) = S (S (ticks (world s)))
    /\ polls (world s2) = S (polls (world s))
    /\ calls (world s2) = S (calls (world s))
    /\ sent (events (world s2)) = (sent (events (world s)) ++ [Command_Sends e])%list.
Proof.
  intros Hs Hl.
  destruct (send_command_returns (Command_Sends e)
              (with_world tick_taken (with_world poll_taken s)))
    as (s1 & E & Hm & Hlib & Hu & _ & _ & Hp & Hc & Hpo & Ht & Hca & Hev).
  exists (with_world tick_taken
            (with_world (event_added
               (Slept (wait_time (dict_get_default (default ∅ (Condition e))
                                    "type" (PyStr "equal"))))) s1)).
  split.
  - unfold run_test_task. unfold bind at 1. unfold is_set. rewrite Hs.
    unfold bind at 1. unfold gets at 1. cbn [with_world command_library].
    rewrite Hl. unfold bind at 1. unfold time_time at 1.
    unfold bind at 1. rewrite E.
    unfold bind at 1. unfold wait_for_response, time_sleep, emit, modify.
    unfold bind at 1. unfold time_time at 1.
    cbn. rewrite Hc, Ht. cbn. reflexivity.
  - cbn. rewrite Hm, Hlib, Hu, Hc, Ht, Hpo, Hca. cbn. repeat split.
    unfold sent in *. rewrite omap_app, Hev. cbn. now rewrite app_nil_r.
Qed.

Lemma run_test_task_missing (name : string) (n : Z) (s : Sys) :
  stop_at (world s) (polls (world s)) = false ->
  command_library s !! n = None ->
  run_test_task name n s
  = Ret None
      (with_world (event_added (Warning ("Command " ++ pretty n ++ " not found")))
         (with_world poll_taken s)).
Proof.
  intros Hs Hl. unfold run_test_task, bind, is_set, gets, emit, modify, ret.
  rewrite Hs. cbn. rewrite Hl. reflexivity.
Qed.

Lemma run_test_task_stopped (name : string) (n : Z) (s : Sys) :
  stop_at (world s) (polls (world s)) = true ->
  run_test_task name n s = Ret None (with_world poll_taken s).
Proof.
  intros Hs. unfold run_test_task, bind, is_set, ret. now rewrite Hs.
Qed.

(** What [add_result] does to the manager, seen from outside the lock. *)
Lemma add_result_effect (r : TestResult) (s : Sys) :
  lock_free s ->
  exists s', add_result r s = Ret tt s'
    /\ world s' = world s /\ command_library s' = command_library s
    /\ user_inputs s' = user_inputs s /\ test_cases s' = test_cases s
    /\ lock_free s'
    /\ current_state (state_manager s') = current_state (state_manager s)
    /\ test_results (state_manager s') = (test_results (state_manager s) ++ [r])%list
    /\ total_tests (state_manager s') = total_tests (state_manager s) + 1
    /\ passed_tests (state_manager s')
       = passed_tests (state_manager s) + (if String.eqb (result r) "Pass" then 1 else 0)
    /\ failed_tests (state_manager s')
       = failed_tests (state_manager s)
         + (if String.eqb (result r) "Pass" then 0
            else if String.eqb (result r) "Fail" then 1 else 0)
    /\ skipped_tests (state_manager s')
       = skipped_tests (state_manager s)
         + (if String.eqb (result r) "Pass" then 0
            else if String.eqb (result r) "Fail" then 0 else 1).
Proof.
  intros H. rewrite (add_result_free r s H). eexists. split; [reflexivity|].
  unfold record_result. cbn.
  destruct (String.eqb (result r) "Pass"); [|destruct (String.eqb (result r) "Fail")];
    cbn; repeat split; lia.
Qed.

(** A judged reply is recorded once, and the loop goes on with the items
    that follow. *)
Lemma run_item_judged (name : string) (n : Z) (e : CommandEntry) (s s2 s3 : Sys)
    (response : option string) (d : Q) (res : TestResult) :
  lock_free s ->
  run_test_task name n s
  = bind (judge_response name (ID e) (Title e) (Command_Sends e) n e response d)
         (fun r => ret (Some r)) s2 ->
  state_manager s2 = state_manager s ->
  judge_response name (ID e) (Title e) (Command_Sends e) n e response d s2
  = Ret res s3 ->
  run_item (name, Some n) s = add_result res s3 /\ lock_free s3
  /\ state_manager s3 = state_manager s.
Proof.
  intros Hl E Hm J.
  assert (state_manager s3 = state_manager s2) as Hm3.
  { pose proof (tame_judge_response name (ID e) (Title e) (Command_Sends e)
                  n e response d s2) as [_ T]. now rewrite J in T. }
  split; [|split; [unfold lock_free in *|]; congruence].
  unfold run_item. cbn. unfold bind at 1. rewrite E.
  unfold bind at 1. rewrite J. reflexivity.
Qed.

Lemma run_items_next (item : string * option Z) (rest : TestStep) (s s' : Sys) :
  run_item item s = Ret tt s' ->
  run_items (item :: rest) s = run_items rest s'.
Proof.
  intros H. change (bind (run_item item) (fun _ => run_items rest) s = run_items rest s').
  unfold bind. now rewrite H.
Qed.

(** C2. A reply whose prefix is not the expected one gives one result:
    a failure that carries the prefix and the value of the reply, names the
    mismatch, and has no expected value.  The result is the same for every
    condition and the command library is as before, so the condition is not
    evaluated; the loop then goes on with the next item. *)
Theorem prefix_mismatch_recorded (name : string) (n : Z) (e : CommandEntry)
    (r : string) (rest : TestStep) (s : Sys) :
  lock_free s ->
  stop_at (world s) (polls (world s)) = false ->
  command_library s !! n = Some e ->
  transport_reply (port (world s) (calls (world s))) = Some r ->
  r <> "" ->
  (classify_data r).1 <> default "" (Response_Expectation e) ->
  exists res s',
    run_item (name, Some n) s = Ret tt s'
    /\ test_results (state_manager s')
       = (test_results (state_manager s) ++ [res])%list
    /\ result res = "Fail"
    /\ prefix res = (classify_data r).1
    /\ actual_value res = (classify_data r).2
    /\ expected_value res = PyNone
    /\ error_message res
       = Some ("Prefix mismatch: expected '" ++ default "" (Response_Expectation e)
               ++ "', got '" ++ (classify_data r).1 ++ "'")
    /\ command_library s' = command_library s
    /\ total_tests (state_manager s') = total_tests (state_manager s) + 1
    /\ failed_tests (state_manager s') = failed_tests (state_manager s) + 1
    /\ run_items ((name, Some n) :: rest) s = run_items rest s'.
Proof.
  intros Hl Hs Hf Hr Hne Hp.
  destruct (run_test_task_found name n e s Hs Hf)
    as (s2 & E & Hm & Hlib & _). rewrite Hr in E.
  set (d := (clock _ _ - clock _ _)%Q) in E.
  pose proof (judge_prefix_mismatch name (ID e) (Title e) (Command_Sends e)
                n e r d s2 Hne Hp) as J.
  edestruct run_item_judged as (R & Hl3 & Hm3);
    [exact Hl | exact E | exact Hm | exact J |].
  match type of R with
  | _ = add_result ?res ?s3 =>
      destruct (add_result_effect res s3 Hl3)
        as (s' & A & Hw & Hlib' & _ & _ & _ & _ & Hres & Htot & _ & Hfail & _)
  end.
  rewrite A in R. pose proof (run_items_next _ rest _ _ R) as Hnext.
  eexists _, s'.
  split; [exact R|]. rewrite Hres, Htot, Hfail, Hlib', Hnext, Hm3. cbn.
  rewrite Hlib. repeat split.
Qed.

Lemma prefix_mismatch_recorded_witness :
  exists res s',
    run_item ("Step1", Some 8) (answering_sys "[err] 5") = Ret tt s'
    /\ test_results (state_manager s') = [res]
    /\ result res = "Fail"
    /\ actual_value res = Some "5"
    /\ expected_value res = PyNone
    /\ command_library s' = command_library (answering_sys "[err] 5").
Proof.
  destruct (prefix_mismatch_recorded "Step1" 8 sample_entry "[err] 5" []
              (answering_sys "[err] 5"))
    as (res & s' & H1 & H2 & H3 & _ & H5 & H6 & _ & H8 & _).
  - vm_compute. reflexivity.
  - vm_compute. reflexivity.
  - vm_compute. reflexivity.
  - vm_compute. reflexivity.
  - discriminate.
  - vm_compute. discriminate.
  - exists res, s'. repeat split; assumption.
Defined.

(** C3, as stated, fails on the text of the message: a step without reply is
    recorded with the message [No response received]. *)
Lemma no_reply_message_differs :
  transport_reply (port (world sample_sys) (calls (world sample_sys))) = None
  /\ returned (run_item ("Step1", Some 8) sample_sys) = Some tt
  /\ map error_message
       (test_results (state_manager (final (run_item ("Step1", Some 8) sample_sys))))
     = [Some "No response received"]
  /\ map error_message
       (test_results (state_manager (final (run_item ("Step1", Some 8) sample_sys))))
     <> [Some "no response"].
Proof.
  split; [vm_compute; reflexivity|]. split; [vm_compute; reflexivity|].
  split; [vm_compute; reflexivity|]. vm_compute. discriminate.
Qed.

(** C3, amended. When the transport hands back no reply (nothing, or an
    empty line), the step is recorded as one failure with the message
    [No response received]; the counters of all and of failed results go up
    by one, and the loop goes on with the items that follow. *)
Theorem no_reply_recorded_as_fail (name : string) (n : Z) (e : CommandEntry)
    (rest : TestStep) (s : Sys) :
  lock_free s ->
  stop_at (world s) (polls (world s)) = false ->
  command_library s !! n = Some e ->
  str_truthy (transport_reply (port (world s) (calls (world s)))) = false ->
  exists res s',
    run_item (name, Some n) s = Ret tt s'
    /\ test_results (state_manager s')
       = (test_results (state_manager s) ++ [res])%list
    /\ step_name res = name
    /\ result res = "Fail"
    /\ error_message res = Some "No response received"
    /\ total_tests (state_manager s') = total_tests (state_manager s) + 1
    /\ failed_tests (state_manager s') = failed_tests (state_manager s) + 1
    /\ passed_tests (state_manager s') = passed_tests (state_manager s)
    /\ skipped_tests (state_manager s') = skipped_tests (state_manager s)
    /\ current_state (state_manager s') = current_state (state_manager s)
    /\ run_items ((name, Some n) :: rest) s = run_items rest s'.
Proof.
  intros Hl Hs Hf Hr.
  destruct (run_test_task_found name n e s Hs Hf) as (s2 & E & Hm & _).
  set (d := (clock _ _ - clock _ _)%Q) in E.
  pose proof (judge_no_response name (ID e) (Title e) (Command_Sends e)
                n e _ d s2 Hr) as J.
  edestruct run_item_judged as (R & Hl3 & Hm3);
    [exact Hl | exact E | exact Hm | exact J |].
  match type of R with
  | _ = add_result ?res ?s3 =>
      destruct (add_result_effect res s3 Hl3)
        as (s' & A & _ & _ & _ & _ & _ & Hcur & Hres & Htot & Hpass & Hfail & Hskip)
  end.
  rewrite A in R. pose proof (run_items_next _ rest _ _ R) as Hnext.
  eexists _, s'.
  split; [exact R|].
  rewrite Hres, Htot, Hfail, Hpass, Hskip, Hcur, Hnext, Hm3. cbn.
  repeat split; lia.
Qed.

Lemma no_reply_recorded_as_fail_witness :
  exists res s',
    run_item ("Step1", Some 8) sample_sys = Ret tt s'
    /\ test_results (state_manager s') = [res]
    /\ result res = "Fail"
    /\ error_message res = Some "No response received"
    /\ run_items [("Step1", Some 8); ("Step2", Some 8)] sample_sys
       = run_items [("Step2", Some 8)] s'.
Proof.
  destruct (no_reply_recorded_as_fail "Step1" 8 sample_entry [("Step2", Some 8)]
              sample_sys)
    as (res & s' & H1 & H2 & _ & H4 & H5 & _ & _ & _ & _ & _ & H11).
  - vm_compute. reflexivity.
  - vm_compute. reflexivity.
  - vm_compute. reflexivity.
  - vm_compute. reflexivity.
  - exists res, s'. repeat split; assumption.
Defined.

(** C8, as stated, fails on the count: a step whose command is missing
    leaves the counter of skipped steps as it was. *)
Lemma unknown_command_not_counted :
  command_library sample_sys !! 7 = None
  /\ returned (run_item ("Step1", Some 7) sample_sys) = Some tt
  /\ test_results (state_manager (final (run_item ("Step1", Some 7) sample_sys))) = []
  /\ skipped_tests (state_manager (final (run_item ("Step1", Some 7) sample_sys)))
     = skipped_tests (state_manager sample_sys)
  /\ skipped_tests (state_manager (final (run_item ("Step1", Some 7) sample_sys)))
     <> skipped_tests (state_manager sample_sys) + 1.
Proof.
  split; [vm_compute; reflexivity|]. split; [vm_compute; reflexivity|].
  split; [vm_compute; reflexivity|]. split; [vm_compute; reflexivity|].
  vm_compute. discriminate.
Qed.

(** C8, amended. A step whose command is not in the library is passed
    over: nothing is sent, no result is recorded and no counter moves (the
    counter of skipped steps stays as it was); a warning is logged and the
    loop goes on with the items that follow. *)
Theorem unknown_command_skipped (name : string) (n : Z) (rest : TestStep) (s : Sys) :
  stop_at (world s) (polls (world s)) = false ->
  command_library s !! n = None ->
  exists s',
    run_item (name, Some n) s = Ret tt s'
    /\ state_manager s' = state_manager s
    /\ command_library s' = command_library s
    /\ calls (world s') = calls (world s)
    /\ sent (events (world s')) = sent (events (world s))
    /\ run_items ((name, Some n) :: rest) s = run_items rest s'.
Proof.
  intros Hs Hf.
  assert (run_item (name, Some n) s
          = Ret tt (with_world (event_added
                                  (Warning ("Command " ++ pretty n ++ " not found")))
                      (with_world poll_taken s))) as R.
  { unfold run_item. cbn. unfold bind at 1.
    now rewrite (run_test_task_missing name n s Hs Hf). }
  eexists. split; [exact R|]. repeat split.
  - unfold sent. cbn. rewrite omap_app. cbn. now rewrite app_nil_r.
  - now apply run_items_next.
Qed.

Lemma unknown_command_skipped_witness :
  exists s',
    run_item ("Step1", Some 7) sample_sys = Ret tt s'
    /\ state_manager s' = state_manager sample_sys
    /\ sent (events (world s')) = [].
Proof.
  destruct (unknown_command_skipped "Step1" 7 [] sample_sys)
    as (s' & H1 & H2 & _ & _ & H5 & _).
  - vm_compute. reflexivity.
  - vm_compute. reflexivity.
  - exists s'. repeat split; assumption.
Defined.

(** ** The loop over the steps *)

Lemma bind_ret_inv {A B : Type} (m : M A) (f : A -> M B) (s s' : Sys) (b : B) :
  bind m f s = Ret b s' -> exists a s1, m s = Ret a s1 /\ f a s1 = Ret b s'.
Proof.
  unfold bind. destruct (m s) as [a s1| |]; [|discriminate..].
  intros H. now exists a, s1.
Qed.

Lemma known_same_keys (lib lib' : gmap Z CommandEntry) (item : string * option Z) :
  dom lib' = dom lib -> known lib' item = known lib item.
Proof.
  intros H. unfold known. destruct item.2 as [n|]; [|reflexivity].
  apply bool_decide_ext. rewrite <- !elem_of_dom. now rewrite H.
Qed.

Lemma unstopped_split (s s1 s' : Sys) :
  later s s1 -> later s1 s' -> unstopped s s' -> unstopped s s1 /\ unstopped s1 s'.
Proof.
  intros L1 L2 U. destruct L1, L2. split; intros n Hn.
  - apply U. lia.
  - rewrite later_stop0. apply U. lia.
Qed.

(** One item that returns: the lock is free again, the state of the run is
    the same, and while the stop event stays clear there is one more result
    exactly when the item names a command of the library. *)
Lemma run_item_ret (item : string * option Z) (s s' : Sys) :
  lock_free s ->
  run_item item s = Ret tt s' ->
  lock_free s' /\ later s s'
  /\ current_state (state_manager s') = current_state (state_manager s)
  /\ (unstopped s s' ->
      length (test_results (state_manager s'))
      = (length (test_results (state_manager s))
         + (if known (command_library s) item then 1 else 0))%nat).
Proof.
  intros Hl. destruct item as [name [n|]]; unfold run_item, known; cbn.
  2:{ intros [= <-]. repeat split; auto using later_refl. }
  intros H. apply bind_ret_inv in H as (r & s1 & T & H).
  pose proof (tame_run_test_task name n s) as [L Hm]. rewrite T in L, Hm. cbn in L, Hm.
  destruct r as [res|].
  - (* a result was judged *)
    assert (lock_free s1) as Hl1 by (unfold lock_free in *; congruence).
    destruct (add_result_effect res s1 Hl1)
      as (s'' & A & Hw & Hlib & Hu & Hc & Hl' & Hcur & Hres & _).
    rewrite A in H. injection H as <-.
    assert (later s1 s'') as L'.
    { split; rewrite ?Hw, ?Hlib, ?Hu, ?Hc; auto. }
    split; [exact Hl'|]. split; [eapply later_trans; eauto|].
    split; [congruence|]. intros U.
    rewrite Hres, length_app, Hm. cbn.
    destruct (stop_at (world s) (polls (world s))) eqn:Hs.
    { rewrite (run_test_task_stopped name n s Hs) in T. discriminate. }
    destruct (command_library s !! n) as [e|] eqn:Hf.
    + rewrite bool_decide_true by eauto. reflexivity.
    + rewrite (run_test_task_missing name n s Hs Hf) in T. discriminate.
  - (* no result *)
    injection H as <-.
    split; [unfold lock_free in *; congruence|]. split; [exact L|].
    split; [congruence|]. intros U. rewrite Hm.
    destruct (stop_at (world s) (polls (world s))) eqn:Hs.
    { rewrite (run_test_task_stopped name n s Hs) in T. injection T as <-.
      rewrite U in Hs; [discriminate | cbn; lia]. }
    destruct (command_library s !! n) as [e|] eqn:Hf.
    + destruct (run_test_task_found name n e s Hs Hf) as (s2 & E & _).
      rewrite E in T. apply bind_ret_inv in T as (r & s3 & _ & [=]).
    + rewrite bool_decide_false; [lia|]. intros [? ?]. discriminate.
Qed.

Lemma run_items_ret (items : TestStep) (s s' : Sys) :
  lock_free s ->
  run_items items s = Ret tt s' ->
  lock_free s' /\ later s s'
  /\ current_state (state_manager s') = current_state (state_manager s)
  /\ (unstopped s s' ->
      length (test_results (state_manager s'))
      = (length (test_results (state_manager s))
         + length (List.filter (known (command_library s)) items))%nat).
Proof.
  revert s. induction items as [|item rest IH]; intros s Hl H.
  - injection H as <-. repeat split; auto using later_refl; cbn; lia.
  - change (bind (run_item item) (fun _ => run_items rest) s = Ret tt s') in H.
    apply bind_ret_inv in H as ([] & s1 & H1 & H2).
    destruct (run_item_ret item s s1 Hl H1) as (Hl1 & L1 & C1 & N1).
    destruct (IH s1 Hl1 H2) as (Hl2 & L2 & C2 & N2).
    split; [exact Hl2|]. split; [eapply later_trans; eauto|].
    split; [congruence|]. intros U.
    destruct (unstopped_split s s1 s' L1 L2 U) as [U1 U2].
    rewrite (N2 U2), (N1 U1). cbn [List.filter].
    rewrite (List.filter_ext (known (command_library s1)) (known (command_library s))).
    2:{ intros a. apply known_same_keys. apply L1. }
    destruct (known (command_library s) item); cbn; lia.
Qed.

Lemma is_set_poll (s : Sys) :
  is_set s = Ret (stop_at (world s) (polls (world s))) (with_world poll_taken s).
Proof. reflexivity. Qed.

Lemma later_poll (s : Sys) : later s (with_world poll_taken s).
Proof. split; cbn; auto. Qed.

(** The loop at a step when the stop event is set: the state becomes
    [STOPPED] and no step runs. *)
Lemma run_steps_stopped (step : TestStep) (rest : list TestStep) (s : Sys) :
  lock_free s ->
  stop_at (world s) (polls (world s)) = true ->
  run_steps (step :: rest) s
  = Ret tt (with_manager (set_lock false)
             (with_world (event_added
                            (StateTransition (current_state (state_manager s)) STOPPED))
                (with_manager (set_current_state STOPPED)
                   (with_manager (set_lock true) (with_world poll_taken s))))).
Proof.
  intros Hl Hs. cbn [run_steps]. unfold bind at 1. rewrite is_set_poll, Hs.
  now rewrite set_state_free.
Qed.

Lemma run_steps_later (steps : list TestStep) (s s' : Sys) :
  lock_free s ->
  run_steps steps s = Ret tt s' ->
  lock_free s' /\ later s s'.
Proof.
  revert s. induction steps as [|step rest IH]; intros s Hl H.
  - injection H as <-. auto using later_refl.
  - cbn [run_steps] in H. unfold bind at 1 in H. rewrite is_set_poll in H.
    destruct (stop_at (world s) (polls (world s))).
    + rewrite set_state_free in H by exact Hl. injection H as <-.
      split; [reflexivity | split; cbn; auto].
    + apply bind_ret_inv in H as ([] & s1 & H1 & H2).
      assert (lock_free (with_world poll_taken s)) as Hl0 by exact Hl.
      destruct (run_items_ret step _ s1 Hl0 H1) as (Hl1 & L1 & _).
      destruct (IH s1 Hl1 H2) as (Hl2 & L2).
      split; [exact Hl2|].
      eapply later_trans; [apply later_poll|]. eapply later_trans; eauto.
Qed.

(** Steps that run to their end without seeing the stop event. *)
Lemma run_steps_ret (steps : list TestStep) (s s' : Sys) :
  lock_free s ->
  run_steps steps s = Ret tt s' ->
  unstopped s s' ->
  lock_free s' /\ later s s'
  /\ current_state (state_manager s') = current_state (state_manager s)
  /\ length (test_results (state_manager s'))
     = (length (test_results (state_manager s))
        + executed (command_library s) steps)%nat.
Proof.
  revert s. induction steps as [|step rest IH]; intros s Hl H U.
  - injection H as <-. repeat split; auto using later_refl; unfold executed; cbn; lia.
  - cbn [run_steps] in H. unfold bind at 1 in H. rewrite is_set_poll in H.
    destruct (stop_at (world s) (polls (world s))) eqn:Hs.
    { rewrite set_state_free in H by exact Hl. injection H as <-.
      rewrite U in Hs; [discriminate | cbn; lia]. }
    apply bind_ret_inv in H as ([] & s1 & H1 & H2).
    assert (lock_free (with_world poll_taken s)) as Hl0 by exact Hl.
    destruct (run_items_ret step _ s1 Hl0 H1) as (Hl1 & L1 & C1 & N1).
    assert (later s s1) as L01 by (eapply later_trans; [apply later_poll | exact L1]).
    destruct (run_steps_later rest s1 s' Hl1 H2) as [_ L2].
    destruct (unstopped_split s s1 s' L01 L2 U) as [U1 U2].
    destruct (IH s1 Hl1 H2 U2) as (Hl2 & _ & C2 & N2).
    split; [exact Hl2|]. split; [eapply later_trans; eauto|].
    split; [cbn in C1; congruence|].
    assert (unstopped (with_world poll_taken s) s1) as U1'.
    { intros n Hn. apply U1. cbn in Hn. lia. }
    rewrite N2, (N1 U1'). cbn. unfold executed. cbn [concat].
    rewrite List.filter_app, length_app.
    rewrite (List.filter_ext (known (command_library s1)) (known (command_library s))).
    2:{ intros a. apply known_same_keys. apply L01. }
    lia.
Qed.

(** When the first [k] steps run to their end without seeing the stop
    event, the whole plan goes on from there with the steps that are left. *)
Lemma run_steps_prefix (k : nat) (steps : list TestStep) (s s1 : Sys) :
  lock_free s ->
  run_steps (take k steps) s = Ret tt s1 ->
  unstopped s s1 ->
  run_steps steps s = run_steps (drop k steps) s1.
Proof.
  revert k s. induction steps as [|step rest IH]; intros k s Hl H U.
  - rewrite take_nil in H. injection H as <-. now rewrite drop_nil.
  - destruct k as [|k].
    { injection H as <-. reflexivity. }
    change (take (S k) (step :: rest)) with (step :: take k rest) in H.
    change (drop (S k) (step :: rest)) with (drop k rest).
    cbn [run_steps] in H |- *. unfold bind at 1 in H. unfold bind at 1.
    rewrite is_set_poll in H |- *.
    destruct (stop_at (world s) (polls (world s))) eqn:Hs.
    { rewrite set_state_free in H by exact Hl. injection H as <-.
      rewrite U in Hs; [discriminate | cbn; lia]. }
    apply bind_ret_inv in H as ([] & sa & H1 & H2).
    unfold bind at 1. rewrite H1.
    assert (lock_free (with_world poll_taken s)) as Hl0 by exact Hl.
    destruct (run_items_ret step _ sa Hl0 H1) as (Hla & La & _).
    assert (later s sa) as L0a by (eapply later_trans; [apply later_poll | exact La]).
    destruct (run_steps_later _ sa s1 Hla H2) as [_ L2].
    apply IH; [exact Hla | exact H2 |].
    now destruct (unstopped_split s sa s1 L0a L2 U).
Qed.

Lemma executed_one_known (lib : gmap Z CommandEntry) (steps : list TestStep) :
  Forall (one_known lib) steps -> executed lib steps = length steps.
Proof.
  unfold executed. induction 1 as [|step rest (name & n & -> & Hn) _ IH]; [reflexivity|].
  cbn [concat]. rewrite List.filter_app, length_app, IH. cbn.
  unfold known. cbn. now rewrite bool_decide_true.
Qed.




(** ** The whole run *)

(** [run_test_case] never gets to its steps: a plan without steps ends in
    [fail_test], any other in [start_test], and both block on the lock that
    they already hold. *)
Lemma run_test_case_blocks (test_plan : string) (s : Sys) :
  exists s', run_test_case test_plan s = Hang s'.
Proof.
  unfold run_test_case. unfold bind at 1. unfold gets at 1.
  destruct (test_cases s !! test_plan) as [[|step rest]|].
  - apply fail_test_blocks.
  - unfold bind at 1. unfold emit, modify. unfold bind at 1.
    unfold start_test, with_lock at 1. cbn.
    destruct (_lock (state_manager s)); eexists; reflexivity.
  - apply fail_test_blocks.
Qed.

(** * Further properties *)

(** ** The state manager *)

Lemma unlock_lock (s : Sys) :
  lock_free s -> with_manager (set_lock false) (with_manager (set_lock true) s) = s.
Proof.
  destruct s as [tc lib ui [] w]. unfold lock_free. cbn. intros ->. reflexivity.
Qed.

Lemma tally_app (verdict : string) (rs rs' : list TestResult) :
  tally verdict (rs ++ rs') = tally verdict rs + tally verdict rs'.
Proof. unfold tally. rewrite filter_app, length_app. lia. Qed.

Lemma tally_other_app (rs rs' : list TestResult) :
  tally_other (rs ++ rs') = tally_other rs + tally_other rs'.
Proof. unfold tally_other. rewrite filter_app, length_app. lia. Qed.

Lemma tally_one (r : TestResult) :
  tally "Pass" [r] = (if String.eqb (result r) "Pass" then 1 else 0)
  /\ tally "Fail" [r]
     = (if String.eqb (result r) "Pass" then 0
        else if String.eqb (result r) "Fail" then 1 else 0)
  /\ tally_other [r]
     = (if String.eqb (result r) "Pass" then 0
        else if String.eqb (result r) "Fail" then 0 else 1).
Proof.
  unfold tally, tally_other. rewrite !filter_cons, !filter_nil.
  destruct (String.eqb_spec (result r) "Pass") as [E|N];
    [|destruct (String.eqb_spec (result r) "Fail") as [E'|N']].
  - rewrite E. repeat case_decide; try congruence; try tauto; try discriminate;
      try (repeat split; reflexivity).
  - rewrite E'. repeat case_decide; try congruence; try tauto; try discriminate;
      try (repeat split; reflexivity).
  - repeat case_decide; try congruence; try tauto;
      try (repeat split; reflexivity).
Qed.

(** X1. Results added one after the other are all recorded, in the order
    of the calls and behind the results that were there; the counter of all
    results grows by their number, and the counters of passes, of failures
    and of other verdicts grow by the number of results of each kind. *)
Theorem add_results_tally (rs : list TestResult) (s : Sys) :
  lock_free s ->
  exists s',
    add_results rs s = Ret tt s'
    /\ lock_free s'
    /\ world s' = world s
    /\ command_library s' = command_library s
    /\ current_state (state_manager s') = current_state (state_manager s)
    /\ test_results (state_manager s') = (test_results (state_manager s) ++ rs)%list
    /\ total_tests (state_manager s')
       = total_tests (state_manager s) + Z.of_nat (length rs)
    /\ passed_tests (state_manager s') = passed_tests (state_manager s) + tally "Pass" rs
    /\ failed_tests (state_manager s') = failed_tests (state_manager s) + tally "Fail" rs
    /\ skipped_tests (state_manager s')
       = skipped_tests (state_manager s) + tally_other rs.
Proof.
  revert s. induction rs as [|r rest IH]; intros s Hl.
  - exists s. cbn. rewrite app_nil_r. repeat split; auto; unfold tally, tally_other; cbn; lia.
  - destruct (add_result_effect r s Hl)
      as (s1 & A & Hw & Hlib & _ & _ & Hl1 & Hcur & Hres & Htot & Hp & Hf & Hs).
    destruct (IH s1 Hl1) as (s' & R & Hl' & Hw' & Hlib' & Hcur' & Hres' & Htot' & Hp' & Hf' & Hs').
    exists s'. split.
    { change (bind (add_result r) (fun _ => add_results rest) s = Ret tt s').
      unfold bind. now rewrite A. }
    destruct (tally_one r) as (T1 & T2 & T3).
    change (r :: rest) with ([r] ++ rest)%list.
    rewrite tally_app, tally_app, tally_other_app, T1, T2, T3.
    rewrite Hres', Hres, Htot', Htot, Hp', Hp, Hf', Hf, Hs', Hs, <- app_assoc.
    repeat split; try congruence; try lia.
    rewrite length_app. cbn. lia.
Qed.

Lemma add_results_tally_witness :
  exists s',
    add_results [pass_result "Step1"; fail_result "Step2"] sample_sys = Ret tt s'
    /\ total_tests (state_manager s') = 2
    /\ passed_tests (state_manager s') = 1
    /\ failed_tests (state_manager s') = 1.
Proof.
  destruct (add_results_tally [pass_result "Step1"; fail_result "Step2"] sample_sys)
    as (s' & R & _ & _ & _ & _ & _ & Ht & Hp & Hf & _).
  - vm_compute. reflexivity.
  - exists s'. split; [exact R|]. rewrite Ht, Hp, Hf.
    repeat split; vm_compute; reflexivity.
Defined.

Lemma consistent_new : consistent new_state_manager.
Proof. repeat split. Qed.

Lemma consistent_reset (test_plan : string) (t : Q) (m : TestStateManager) :
  consistent (reset_for test_plan t m).
Proof. repeat split. Qed.

(** X2. When the counters say what the list of results holds, they still
    do after a result is added, whatever its verdict; the add returns with
    the lock free again.  The counters of a new manager, and those that
    [start_test] leaves, are of that kind, and the four counters then add up:
    all results are passes, failures or others. *)
Theorem add_result_keeps_counters (r : TestResult) (s : Sys) :
  lock_free s ->
  consistent (state_manager s) ->
  exists s',
    add_result r s = Ret tt s'
    /\ lock_free s'
    /\ consistent (state_manager s')
    /\ total_tests (state_manager s')
       = passed_tests (state_manager s') + failed_tests (state_manager s')
         + skipped_tests (state_manager s').
Proof.
  intros Hl (Ct & Cp & Cf & Cs).
  destruct (add_result_effect r s Hl)
    as (s1 & A & _ & _ & _ & _ & Hl1 & _ & Hres & Htot & Hp & Hf & Hs).
  exists s1. split; [exact A|]. split; [exact Hl1|].
  destruct (tally_one r) as (T1 & T2 & T3).
  assert (consistent (state_manager s1)) as C.
  { unfold consistent. rewrite Hres, Htot, Hp, Hf, Hs, !tally_app, tally_other_app,
      length_app, T1, T2, T3, Ct, Cp, Cf, Cs. cbn. repeat split; lia. }
  split; [exact C|]. destruct C as (Ct' & Cp' & Cf' & Cs').
  rewrite Ct', Cp', Cf', Cs'. unfold tally, tally_other.
  clear. induction (test_results (state_manager s1)) as [|x l IH]; [reflexivity|].
  rewrite !filter_cons. cbn [length].
  repeat case_decide; cbn [length]; try lia; try tauto; try congruence.
  all: exfalso; destruct (decide (result x = "Pass")), (decide (result x = "Fail"));
    tauto.
Qed.

Lemma add_result_keeps_counters_witness :
  exists s',
    add_result (fail_result "Step1") sample_sys = Ret tt s'
    /\ lock_free s'
    /\ consistent (state_manager s').
Proof.
  destruct (add_result_keeps_counters (fail_result "Step1") sample_sys)
    as (s' & R & Hl & C & _).
  - vm_compute. reflexivity.
  - exact consistent_new.
  - exists s'. split; [exact R|]. split; [exact Hl | exact C].
Defined.

(** X3. With the lock free, [get_failed_tests] and [get_passed_tests]
    return and leave the whole state as it was; each view holds exactly the
    results of its verdict, in the order in which they were recorded, and
    when the counters say what the list holds the lengths of the two views
    are the counters of failures and of passes. *)
Theorem result_views (s : Sys) :
  lock_free s ->
  exists failed passed,
    get_failed_tests s = Ret failed s
    /\ get_passed_tests s = Ret passed s
    /\ failed `sublist_of` test_results (state_manager s)
    /\ passed `sublist_of` test_results (state_manager s)
    /\ (forall r, r ∈ failed <-> result r = "Fail" /\ r ∈ test_results (state_manager s))
    /\ (forall r, r ∈ passed <-> result r = "Pass" /\ r ∈ test_results (state_manager s))
    /\ (consistent (state_manager s) ->
        Z.of_nat (length failed) = failed_tests (state_manager s)
        /\ Z.of_nat (length passed) = passed_tests (state_manager s)).
Proof.
  intros Hl. eexists _, _. split; [|split].
  - unfold get_failed_tests, with_lock. rewrite Hl. cbn.
    now rewrite (unlock_lock s Hl).
  - unfold get_passed_tests, with_lock. rewrite Hl. cbn.
    now rewrite (unlock_lock s Hl).
  - split; [apply sublist_filter|]. split; [apply sublist_filter|].
    split; [intros r; apply (list_elem_of_filter (fun r => result r = "Fail"))|].
    split; [intros r; apply (list_elem_of_filter (fun r => result r = "Pass"))|].
    intros (_ & Cp & Cf & _). now rewrite Cp, Cf.
Qed.

Lemma result_views_witness :
  exists failed passed,
    get_failed_tests sample_sys = Ret failed sample_sys
    /\ get_passed_tests sample_sys = Ret passed sample_sys
    /\ failed `sublist_of` test_results (state_manager sample_sys).
Proof.
  destruct (result_views sample_sys) as (failed & passed & F & P & S & _).
  - vm_compute. reflexivity.
  - exists failed, passed. split; [exact F|]. split; [exact P | exact S].
Defined.

(** X4. With the lock free, [set_state] returns with the new state set, the
    transition from the old state logged once, and everything else of the
    manager as it was: a call of [get_state] after it returns the new state
    and changes nothing. *)
Theorem set_state_then_get_state (new_state : TestState) (s : Sys) :
  lock_free s ->
  exists s',
    set_state new_state s = Ret tt s'
    /\ get_state s' = Ret new_state s'
    /\ lock_free s'
    /\ events (world s')
       = (events (world s)
          ++ [StateTransition (current_state (state_manager s)) new_state])%list
    /\ test_results (state_manager s') = test_results (state_manager s)
    /\ total_tests (state_manager s') = total_tests (state_manager s)
    /\ passed_tests (state_manager s') = passed_tests (state_manager s)
    /\ failed_tests (state_manager s') = failed_tests (state_manager s)
    /\ skipped_tests (state_manager s') = skipped_tests (state_manager s)
    /\ start_time (state_manager s') = start_time (state_manager s)
    /\ end_time (state_manager s') = end_time (state_manager s)
    /\ command_library s' = command_library s.
Proof.
  intros Hl. rewrite (set_state_free new_state s Hl). eexists. split; [reflexivity|].
  split.
  - unfold get_state, with_lock. cbn. f_equal.
  - repeat split.
Qed.

Lemma set_state_then_get_state_witness :
  exists s',
    set_state RUNNING sample_sys = Ret tt s'
    /\ get_state s' = Ret RUNNING s'
    /\ events (world s') = [StateTransition IDLE RUNNING].
Proof.
  destruct (set_state_then_get_state RUNNING sample_sys) as (s' & S & G & _ & E & _).
  - vm_compute. reflexivity.
  - exists s'. split; [exact S|]. split; [exact G|]. rewrite E. reflexivity.
Defined.

(** X5. With the lock free, [get_duration] returns and leaves the manager
    as it was.  Before a start time is set it is zero and the clock is not
    read; with a start and an end time it is their difference, again
    without a reading of the clock; with a start time alone it is the time
    from the start to one reading of the clock.  A time of zero counts as not
    set. *)
Theorem get_duration_cases (s : Sys) :
  lock_free s ->
  exists q s',
    get_duration s = Ret q s'
    /\ state_manager s' = state_manager s
    /\ command_library s' = command_library s
    /\ (time_truthy (start_time (state_manager s)) = false ->
        q = 0%Q /\ s' = s)
    /\ (time_truthy (start_time (state_manager s)) = true ->
        time_truthy (end_time (state_manager s)) = true ->
        q = (default 0%Q (end_time (state_manager s))
             - default 0%Q (start_time (state_manager s)))%Q
        /\ s' = s)
    /\ (time_truthy (start_time (state_manager s)) = true ->
        time_truthy (end_time (state_manager s)) = false ->
        q = (clock (world s) (ticks (world s))
             - default 0%Q (start_time (state_manager s)))%Q
        /\ ticks (world s') = S (ticks (world s))).
Proof.
  intros Hl. unfold get_duration, with_lock. rewrite Hl.
  unfold bind, gets, ret, time_time. cbn.
  destruct (time_truthy (start_time (state_manager s))) eqn:Hs;
    [destruct (time_truthy (end_time (state_manager s))) eqn:He|]; cbn.
  - eexists _, _. split; [reflexivity|]. rewrite (unlock_lock s Hl).
    repeat split; intros; congruence.
  - eexists _, _. split; [reflexivity|]. cbn.
    destruct s as [tc lib ui [] w]. unfold lock_free in Hl. cbn in *. subst.
    repeat split; intros; congruence.
  - eexists _, _. split; [reflexivity|]. rewrite (unlock_lock s Hl).
    repeat split; intros; congruence.
Qed.

Lemma get_duration_cases_witness :
  exists q s',
    get_duration sample_sys = Ret q s'
    /\ state_manager s' = state_manager sample_sys
    /\ q = 0%Q.
Proof.
  destruct (get_duration_cases sample_sys) as (q & s' & G & M & _ & Z0 & _).
  - vm_compute. reflexivity.
  - exists q, s'. split; [exact G|]. split; [exact M|].
    apply Z0. vm_compute. reflexivity.
Defined.

(** X6. [complete_test] and [fail_test] never return: each sets the end
    time under the lock and then blocks in [set_state], so the state never
    becomes [COMPLETED] or [FAILED] through them, and no transition is
    logged. *)
Theorem terminal_states_never_set (msg : string) (s : Sys) :
  (exists s', complete_test s = Hang s'
     /\ current_state (state_manager s') = current_state (state_manager s)
     /\ events (world s') = events (world s)
     /\ (lock_free s ->
         end_time (state_manager s') = Some (clock (world s) (ticks (world s)))))
  /\ (exists s', fail_test msg s = Hang s'
        /\ current_state (state_manager s') = current_state (state_manager s)
        /\ events (world s') = events (world s)
        /\ (lock_free s ->
            end_time (state_manager s') = Some (clock (world s) (ticks (world s))))).
Proof.
  unfold complete_test, fail_test, lock_free. split.
  - unfold with_lock at 1. destruct (_lock (state_manager s)) eqn:Hl.
    + exists s. repeat split. discriminate.
    + eexists. split; [reflexivity|]. repeat split.
  - unfold with_lock at 1. destruct (_lock (state_manager s)) eqn:Hl.
    + exists s. repeat split. discriminate.
    + eexists. split; [reflexivity|]. repeat split.
Qed.

(** ** Conditions, further *)

Lemma append_cons (c : ascii) (a b : string) :
  String c a ++ b = String c (a ++ b).
Proof. reflexivity. Qed.

Lemma append_nil (b : string) : "" ++ b = b.
Proof. reflexivity. Qed.

Lemma append_length (a b : string) :
  String.length (a ++ b) = (String.length a + String.length b)%nat.
Proof.
  induction a as [|c a IH]; [reflexivity|].
  rewrite append_cons. cbn. now rewrite IH.
Qed.

(** X7. For a condition of type [valid timestamp] the validator returns,
    without touching the manager or the library.  A value that is no
    integer gives [False] and the clock is not read; an integer gives
    [True] exactly when it lies less than 300 seconds from the whole seconds
    of one reading of the clock, before or after it. *)
Theorem timestamp_window (condition : gmap string pyval) (actual_value : string)
    (s : Sys) :
  condition !! "type" = Some (PyStr "valid timestamp") ->
  exists b s',
    validate_data condition actual_value s = Ret b s'
    /\ state_manager s' = state_manager s
    /\ command_library s' = command_library s
    /\ (PyString.to_int actual_value = None -> b = false /\ s' = s)
    /\ (b = true <->
        exists t, PyString.to_int actual_value = Some t
          /\ (Qtrunc (clock (world s) (ticks (world s))) - 300 < t
              < Qtrunc (clock (world s) (ticks (world s))) + 300)%Z).
Proof.
  intros Ht. unfold validate_data, dict_get. rewrite Ht. cbn.
  unfold is_valid_timestamp, bind, time_time, ret.
  destruct (PyString.to_int actual_value) as [t|].
  - eexists _, _. split; [reflexivity|]. cbn. split; [reflexivity|].
    split; [reflexivity|]. split; [discriminate|].
    rewrite Z.ltb_lt. split.
    + intros H. exists t. split; [reflexivity|]. lia.
    + intros (t' & E & H). injection E as <-. lia.
  - eexists _, _. split; [reflexivity|]. split; [reflexivity|].
    split; [reflexivity|]. split; [auto|].
    split; [discriminate|]. intros (t & E & _). discriminate.
Qed.

Lemma timestamp_window_witness :
  exists b s',
    validate_data (<["type" := PyStr "valid timestamp"]> ∅) "1699999701" sample_sys
    = Ret b s'
    /\ b = true.
Proof.
  destruct (timestamp_window (<["type" := PyStr "valid timestamp"]> ∅)
              "1699999701" sample_sys) as (b & s' & V & _ & _ & _ & I).
  - vm_compute. reflexivity.
  - exists b, s'. split; [exact V|]. apply I.
    exists 1699999701. split; vm_compute; [reflexivity|]. split; reflexivity.
Defined.

(** X8. For a condition of type [equal] the validator returns with the state
    as it was, and the answer is [True] exactly when the expected value of
    the condition is a string and is the actual value, character for
    character; a number as expected value, or none, never is. *)
Theorem equal_is_string_equality (condition : gmap string pyval)
    (actual_value : string) (s : Sys) :
  condition !! "type" = Some (PyStr "equal") ->
  exists b,
    validate_data condition actual_value s = Ret b s
    /\ (b = true <-> condition !! "expected" = Some (PyStr actual_value)).
Proof.
  intros Ht. unfold validate_data, dict_get. rewrite Ht. cbn.
  eexists. split; [reflexivity|].
  destruct (condition !! "expected") as [[|e|z]|]; cbn;
    try (split; [discriminate | intros [=]]).
  rewrite String.eqb_eq. split; [intros ->; reflexivity | intros [= ->]; reflexivity].
Qed.

Lemma equal_is_string_equality_witness :
  exists b,
    validate_data (<["type" := PyStr "equal"]> (<["expected" := PyInt 5]> ∅)) "5"
      sample_sys = Ret b sample_sys
    /\ b <> true.
Proof.
  destruct (equal_is_string_equality
              (<["type" := PyStr "equal"]> (<["expected" := PyInt 5]> ∅)) "5" sample_sys)
    as (b & V & I).
  - vm_compute. reflexivity.
  - exists b. split; [exact V|]. intros Hb. apply I in Hb.
    vm_compute in Hb. discriminate.
Defined.

(** X9. For a condition of type [between] whose bounds convert to integers
    (an integer, a string of digits, or a missing bound, which counts as 0),
    the validator of [Process_Control_20251201.py] returns with the state as
    it was, and the answer is [True] exactly when the actual value converts
    to an integer that lies between the bounds, both included. *)
Theorem between_with_resolved_bounds (condition : gmap string pyval)
    (low high : Z) (actual_value : string) (s : Sys) :
  condition !! "type" = Some (PyStr "between") ->
  py_int (dict_get_default condition "low" (PyInt 0)) = Ok low ->
  py_int (dict_get_default condition "high" (PyInt 0)) = Ok high ->
  exists b,
    validate_data condition actual_value s = Ret b s
    /\ (b = true <->
        exists v, PyString.to_int actual_value = Some v /\ (low <= v <= high)%Z).
Proof.
  intros Ht Hl Hh. unfold validate_data, dict_get. rewrite Ht. cbn.
  rewrite Hl, Hh. unfold bind, try_except, lift, py_int, ret, raise. cbn.
  destruct (PyString.to_int actual_value) as [v|]; eexists; (split; [reflexivity|]).
  - rewrite andb_true_iff, !Z.leb_le. split.
    + intros [? ?]. exists v. auto.
    + intros (v' & Hv & ? & ?). injection Hv as <-. auto.
  - split; [discriminate|]. intros (v & Hv & _). discriminate.
Qed.

Lemma between_with_resolved_bounds_witness :
  exists b,
    validate_data (<["type" := PyStr "between"]> (<["high" := PyStr "20"]> ∅)) "0"
      sample_sys = Ret b sample_sys
    /\ b = true.
Proof.
  destruct (between_with_resolved_bounds
              (<["type" := PyStr "between"]> (<["high" := PyStr "20"]> ∅))
              0 20 "0" sample_sys) as (b & V & I).
  - vm_compute. reflexivity.
  - vm_compute. reflexivity.
  - vm_compute. reflexivity.
  - exists b. split; [exact V|]. apply I. exists 0.
    split; [vm_compute; reflexivity | lia].
Defined.

(** X10. The bounds of a [between] condition are converted before the
    handler is entered: a bound that does not convert makes the validator
    of [Process_Control_20251201.py] raise ([ValueError] for a string that is
    no integer, [TypeError] for a null), whatever the actual value is, and
    the state is as it was. *)
Theorem between_bad_bound_raises (condition : gmap string pyval) (e : exn)
    (actual_value : string) (s : Sys) :
  condition !! "type" = Some (PyStr "between") ->
  py_int (dict_get_default condition "low" (PyInt 0)) = Err e
  \/ (exists low, py_int (dict_get_default condition "low" (PyInt 0)) = Ok low)
     /\ py_int (dict_get_default condition "high" (PyInt 0)) = Err e ->
  validate_data condition actual_value s = Raise e s.
Proof.
  intros Ht H. unfold validate_data, dict_get. rewrite Ht. cbn.
  destruct H as [Hl|[[low Hl] Hh]].
  - rewrite Hl. reflexivity.
  - rewrite Hl, Hh. reflexivity.
Qed.

Lemma between_bad_bound_raises_witness :
  validate_data (<["type" := PyStr "between"]> (<["low" := PyStr "ten"]> ∅)) "15"
    sample_sys = Raise ValueError sample_sys.
Proof.
  apply (between_bad_bound_raises
           (<["type" := PyStr "between"]> (<["low" := PyStr "ten"]> ∅))
           ValueError "15" sample_sys).
  - vm_compute. reflexivity.
  - left. vm_compute. reflexivity.
Defined.

Lemma groups_spec (n : nat) (s r : string) :
  Mac.groups n s = Some r <->
  exists gs, length gs = n /\ forallb mac_group_ok gs = true
             /\ s = join (map mac_group gs) ++ r.
Proof.
  revert s. induction n as [|n IH]; intros s; cbn [Mac.groups].
  - split.
    + intros [= <-]. exists []. repeat split.
    + intros (gs & Hn & _ & ->). destruct gs; [reflexivity | discriminate].
  - split.
    + destruct s as [|a [|b [|c s]]]; try discriminate.
      destruct (Mac.is_hex a && Mac.is_hex b && Mac.is_sep c) eqn:Hok; [|discriminate].
      intros H. apply IH in H as (gs & Hn & Hall & ->).
      exists ((a, b, c) :: gs). cbn [length forallb map join].
      unfold mac_group_ok at 1. cbn [fst snd]. rewrite Hok, Hall, Hn.
      repeat split.
    + intros (gs & Hn & Hall & ->). destruct gs as [|[[a b] c] gs]; [discriminate|].
      cbn [length] in Hn. injection Hn as Hn.
      cbn [forallb] in Hall. apply andb_true_iff in Hall as [Hok Hall].
      cbn [map join]. unfold mac_group at 1. cbn [fst snd].
      rewrite !append_cons, append_nil. unfold mac_group_ok in Hok. cbn [fst snd] in Hok.
      rewrite Hok. apply IH. exists gs. repeat split; assumption.
Qed.

Lemma join_groups_length (gs : list (ascii * ascii * ascii)) :
  String.length (join (map mac_group gs)) = (3 * length gs)%nat.
Proof.
  induction gs as [|g gs IH]; [reflexivity|].
  cbn [map join length]. rewrite append_length, IH. cbn. lia.
Qed.

(** X11. [is_valid_mac_address] accepts exactly the strings made of five
    groups of two hexadecimal digits and a separator (a colon or a hyphen,
    which may be mixed within one address), two more hexadecimal digits, and
    then nothing or one final line feed.  An accepted string therefore has
    17 characters, or 18 with the line feed. *)
Theorem mac_address_shape (s : string) :
  (is_valid_mac_address s = true <->
   exists gs a b tail,
     length gs = 5%nat /\ forallb mac_group_ok gs = true
     /\ Mac.is_hex a = true /\ Mac.is_hex b = true
     /\ (tail = "" \/ tail = line_feed)
     /\ s = join (map mac_group gs) ++ String a (String b tail))
  /\ (is_valid_mac_address s = true ->
      String.length s = 17%nat \/ String.length s = 18%nat).
Proof.
  assert (is_valid_mac_address s = true <->
          exists gs a b tail,
            length gs = 5%nat /\ forallb mac_group_ok gs = true
            /\ Mac.is_hex a = true /\ Mac.is_hex b = true
            /\ (tail = "" \/ tail = line_feed)
            /\ s = join (map mac_group gs) ++ String a (String b tail)) as Hiff.
  { unfold is_valid_mac_address, Mac.matches. split.
    - destruct (Mac.groups 5 s) as [[|a [|b tail]]|] eqn:G; try discriminate.
      intros H. apply andb_true_iff in H as [H Hend].
      apply andb_true_iff in H as [Ha Hb].
      apply groups_spec in G as (gs & Hn & Hall & ->).
      exists gs, a, b, tail. repeat split; auto.
      unfold Mac.at_end in Hend. apply orb_true_iff in Hend as [E|E];
        apply String.eqb_eq in E; auto.
    - intros (gs & a & b & tail & Hn & Hall & Ha & Hb & Ht & ->).
      assert (Mac.groups 5 (join (map mac_group gs) ++ String a (String b tail))
              = Some (String a (String b tail))) as G.
      { apply groups_spec. exists gs. auto. }
      rewrite G, Ha, Hb. cbn. unfold Mac.at_end.
      destruct Ht as [-> | ->]; reflexivity. }
  split; [exact Hiff|].
  intros H. apply Hiff in H as (gs & a & b & tail & Hn & _ & _ & _ & Ht & ->).
  rewrite append_length, join_groups_length, Hn.
  destruct Ht as [-> | ->]; cbn; auto.
Qed.

Lemma has_space_partition (s : string) :
  match PyString.partition_space s with
  | Some (p, a) => has_space p = false /\ has_space s = true
  | None => has_space s = false
  end.
Proof.
  induction s as [|c r IH]; cbn; [reflexivity|].
  destruct (Ascii.eqb c " "%char) eqn:Hc; cbn.
  - split; reflexivity.
  - destruct (PyString.partition_space r) as [[p a]|].
    + destruct IH as [Hp Hr]. cbn. rewrite Hc, Hp, Hr. split; reflexivity.
    + exact IH.
Qed.

(** X12. The prefix that [classify_data] returns never holds a space, and
    the value is absent exactly when the response holds no space at all: a
    response with a space always has a value, which is empty when the space
    is the last character. *)
Theorem classify_data_prefix_has_no_space (response : string) :
  has_space (classify_data response).1 = false
  /\ ((classify_data response).2 = None <-> has_space response = false).
Proof.
  unfold classify_data, PyString.split_space_1.
  pose proof (has_space_partition response) as H.
  destruct (PyString.partition_space response) as [[p a]|]; cbn.
  - destruct H as [Hp Hs]. split; [exact Hp|]. rewrite Hs.
    split; discriminate.
  - split; [exact H|]. split; auto.
Qed.

(** ** The judge, further *)

Lemma get_expected_value_returns (command_id : string) (s : Sys) :
  get_expected_value command_id s = Ret (expected_for (user_inputs s) command_id) s.
Proof.
  unfold get_expected_value, expected_for, expected_key.
  repeat (destruct (String.eqb command_id _); [reflexivity|]). reflexivity.
Qed.

(** From a reply with the expected prefix, a value and a condition that is
    not deferred, the judge goes to the validator. *)
Lemma judge_validates (sn cid ti cs : string) (ref : Z) (e : CommandEntry)
    (r : string) (d : Q) (s : Sys) :
  r <> "" ->
  (classify_data r).1 = default "" (Response_Expectation e) ->
  str_truthy (classify_data r).2 = true ->
  is_deferred (dict_get (default ∅ (Condition e)) "type") = false ->
  let expected := expected_for (user_inputs s) cid in
  let a := default "" (classify_data r).2 in
  let now := clock (world s) (ticks (world s)) in
  let message :=
    "Validation failed: expected '" ++ py_str expected ++ "', got '" ++ a ++ "'" in
  judge_response sn cid ti cs ref e (Some r) d s
  = match validate_data (condition_for e expected) a
            (before_validation ref e expected s) with
    | Ret b s' =>
        Ret (judged sn cid ti cs r d now
               (if truthy expected then expected else PyNone) b message) s'
    | Raise x s' => Raise x s'
    | Hang s' => Hang s'
    end.
Proof.
  intros Hr Hp Ha Hd expected a now message. subst a message now.
  unfold judge_response. unfold bind at 1. unfold time_time at 1.
  cbn [str_truthy negb default]. change (id r) with r.
  destruct (String.eqb_spec r "") as [|_]; [contradiction|]. cbn [negb].
  unfold judged.
  destruct (classify_data r) as [p v]. cbn [fst snd] in *. cbv iota beta.
  rewrite <- Hp, String.eqb_refl. cbn [negb]. rewrite Hd, Ha.
  unfold bind at 1. rewrite get_expected_value_returns. cbn [user_inputs with_world].
  fold expected. unfold condition_for, before_validation.
  destruct (truthy expected) eqn:Ht.
  - destruct (Condition e) as [c|]; cbn [default];
      unfold bind, modify, ret; cbn;
      match goal with
      | |- context [validate_data ?c ?x ?st] => destruct (validate_data c x st) as [[]| |]
      end; reflexivity.
  - unfold bind, ret; cbn;
      match goal with
      | |- context [validate_data ?c ?x ?st] => destruct (validate_data c x st) as [[]| |]
      end; reflexivity.
Qed.

(** X13. A reply with the expected prefix to a command whose condition is
    of a deferred type ([asynchrony], [restore], [therapy start],
    [therapy stop]) passes, whatever follows the prefix: the result carries
    the status of the condition as expected value, ["N/A"] when the
    condition has none, and no message; the validator is not called and the
    command library is as it was. *)
Theorem deferred_condition_passes (sn cid ti cs : string) (ref : Z)
    (e : CommandEntry) (r : string) (d : Q) (s : Sys) :
  r <> "" ->
  (classify_data r).1 = default "" (Response_Expectation e) ->
  is_deferred (dict_get (default ∅ (Condition e)) "type") = true ->
  judge_response sn cid ti cs ref e (Some r) d s
  = Ret (judged sn cid ti cs r d (clock (world s) (ticks (world s)))
           (dict_get_default (default ∅ (Condition e)) "status" (PyStr "N/A"))
           true "")
        (with_world tick_taken s).
Proof.
  intros Hr Hp Hd. unfold judge_response, bind, time_time, judged. cbn.
  destruct (String.eqb_spec r "") as [|_]; [contradiction|]. cbn.
  destruct (classify_data r) as [p a]. cbn in *. subst p.
  rewrite String.eqb_refl. cbn. rewrite Hd. reflexivity.
Qed.

Lemma deferred_condition_passes_witness :
  exists res s',
    judge_response "Step1" "Restore" "Restore defaults" "restore" 9 restore_entry
      (Some "[restore+ok] anything") 1 sample_sys = Ret res s'
    /\ result res = "Pass" /\ expected_value res = PyStr "N/A".
Proof.
  eexists _, _. split.
  - refine (deferred_condition_passes "Step1" "Restore" "Restore defaults" "restore"
              9 restore_entry "[restore+ok] anything" 1 sample_sys _ _ _).
    + discriminate.
    + vm_compute. reflexivity.
    + vm_compute. reflexivity.
  - split; vm_compute; reflexivity.
Defined.

(** X14. For a command that has no expected value among the user inputs, a
    reply with the expected prefix and a value is judged by the validator
    alone, on the condition of the entry: the verdict is [Pass] when the
    validator says [True], and [Fail] with a message that quotes the actual
    value when it says [False]; the expected value of the result stays
    absent, the library is as it was, and what the validator raises goes on
    to the caller. *)
Theorem verdict_is_the_validators (sn cid ti cs : string) (ref : Z)
    (e : CommandEntry) (r : string) (d : Q) (s : Sys) :
  r <> "" ->
  (classify_data r).1 = default "" (Response_Expectation e) ->
  str_truthy (classify_data r).2 = true ->
  is_deferred (dict_get (default ∅ (Condition e)) "type") = false ->
  truthy (expected_for (user_inputs s) cid) = false ->
  judge_response sn cid ti cs ref e (Some r) d s
  = match validate_data (default ∅ (Condition e)) (default "" (classify_data r).2)
            (with_world tick_taken s) with
    | Ret b s' =>
        Ret (judged sn cid ti cs r d (clock (world s) (ticks (world s))) PyNone b
               ("Validation failed: expected '"
                ++ py_str (expected_for (user_inputs s) cid)
                ++ "', got '" ++ default "" (classify_data r).2 ++ "'")) s'
    | Raise x s' => Raise x s'
    | Hang s' => Hang s'
    end.
Proof.
  intros Hr Hp Ha Hd Ht.
  rewrite (judge_validates sn cid ti cs ref e r d s Hr Hp Ha Hd).
  unfold condition_for, before_validation. rewrite Ht. reflexivity.
Qed.

Lemma verdict_is_the_validators_witness :
  exists res,
    returned (judge_response "Step1" "Get_Battery" "Battery level" "bat" 8
                sample_entry (Some "[bat+ok] 21") 1 sample_sys) = Some res
    /\ result res = "Fail"
    /\ error_message res = Some "Validation failed: expected 'None', got '21'".
Proof.
  pose proof (verdict_is_the_validators "Step1" "Get_Battery" "Battery level" "bat"
                8 sample_entry "[bat+ok] 21" 1 sample_sys) as H.
  exists (judged "Step1" "Get_Battery" "Battery level" "bat" "[bat+ok] 21" 1
            (clock (world sample_sys) (ticks (world sample_sys))) PyNone false
            "Validation failed: expected 'None', got '21'").
  split.
  - rewrite H.
    + vm_compute. reflexivity.
    + discriminate.
    + vm_compute. reflexivity.
    + vm_compute. reflexivity.
    + vm_compute. reflexivity.
    + vm_compute. reflexivity.
  - split; reflexivity.
Defined.

(** X15. For a command with a non-empty expected value among the user
    inputs (serial number, firmware, software and Wi-Fi version), a reply
    with the expected prefix and a value is compared with the value of the
    user when the condition is of type [equal]: the verdict is [Pass] exactly
    when the two are the same string, whatever expected value the condition
    had, and the result carries the value of the user.  The value of the user
    is also written into the condition of the entry in the command library,
    where it stays for the rest of the run; the other entries are as they
    were. *)
Theorem identity_command_uses_user_input (sn cid ti cs : string) (ref : Z)
    (e : CommandEntry) (c : gmap string pyval) (r : string) (d : Q) (s : Sys) :
  r <> "" ->
  (classify_data r).1 = default "" (Response_Expectation e) ->
  str_truthy (classify_data r).2 = true ->
  Condition e = Some c ->
  c !! "type" = Some (PyStr "equal") ->
  truthy (expected_for (user_inputs s) cid) = true ->
  exists s',
    judge_response sn cid ti cs ref e (Some r) d s
    = Ret (judged sn cid ti cs r d (clock (world s) (ticks (world s)))
             (expected_for (user_inputs s) cid)
             (str_eq_pyval (default "" (classify_data r).2)
                (expected_for (user_inputs s) cid))
             ("Validation failed: expected '"
              ++ py_str (expected_for (user_inputs s) cid)
              ++ "', got '" ++ default "" (classify_data r).2 ++ "'")) s'
    /\ state_manager s' = state_manager s
    /\ (command_library s !! ref = Some e ->
        command_library s' !! ref
        = Some (set_condition
                  (<["expected" := expected_for (user_inputs s) cid]> c) e))
    /\ (forall n, n <> ref -> command_library s' !! n = command_library s !! n).
Proof.
  intros Hr Hp Ha Hc Hty Ht.
  assert (is_deferred (dict_get (default ∅ (Condition e)) "type") = false) as Hd.
  { rewrite Hc. unfold dict_get. cbn [default]. change (id c) with c.
    rewrite Hty. reflexivity. }
  rewrite (judge_validates sn cid ti cs ref e r d s Hr Hp Ha Hd).
  unfold condition_for, before_validation. rewrite Ht, Hc. cbn [default].
  change (id c) with c.
  unfold validate_data, dict_get.
  rewrite lookup_insert_ne by discriminate. rewrite Hty. cbn.
  rewrite lookup_insert_eq. cbn.
  eexists. split; [reflexivity|]. split; [reflexivity|]. cbn. split.
  - intros Hl. rewrite lookup_alter. rewrite decide_True by reflexivity.
    rewrite Hl. reflexivity.
  - intros n Hn. rewrite lookup_alter. rewrite decide_False by congruence.
    reflexivity.
Qed.

Lemma identity_command_uses_user_input_witness :
  exists res s',
    judge_response "Step1" "Get_SN_Number" "Serial number" "sn" 3 serial_entry
      (Some "[sn+ok] SN0000000001A") 1 serial_sys = Ret res s'
    /\ result res = "Pass"
    /\ expected_value res = PyStr "SN0000000001A".
Proof.
  destruct (identity_command_uses_user_input "Step1" "Get_SN_Number" "Serial number"
              "sn" 3 serial_entry serial_condition "[sn+ok] SN0000000001A" 1
              serial_sys) as (s' & J & _).
  - discriminate.
  - vm_compute. reflexivity.
  - vm_compute. reflexivity.
  - reflexivity.
  - vm_compute. reflexivity.
  - vm_compute. reflexivity.
  - eexists _, s'. split; [exact J|]. split; vm_compute; reflexivity.
Defined.

(** The shape of every result of the judge. *)
Lemma judge_response_shape (sn cid ti cs : string) (ref : Z)
    (e : CommandEntry) (response : option string) (d : Q) (s s' : Sys)
    (res : TestResult) :
  judge_response sn cid ti cs ref e response d s = Ret res s' ->
  (result res = "Pass" /\ error_message res = None
   \/ result res = "Fail" /\ is_Some (error_message res))
  /\ step_name res = sn /\ command_id res = cid /\ title res = ti
  /\ command_sent res = cs /\ duration res = d
  /\ timestamp res = clock (world s) (ticks (world s))
  /\ state_manager s' = state_manager s.
Proof.
  intros H.
  assert (state_manager s' = state_manager s) as Hm.
  { pose proof (tame_judge_response sn cid ti cs ref e response d s) as [_ T].
    now rewrite H in T. }
  revert H. unfold judge_response, bind, time_time. cbn.
  assert (forall x : string, is_Some (Some x)) as HS by eauto.
  destruct response as [r|]; cbn;
    [destruct (String.eqb r ""); cbn|];
    try (intros [= <- <-]; cbn; repeat split; auto; fail).
  destruct (classify_data r) as [p a].
  repeat (first
    [ rewrite get_expected_value_returns
    | match goal with
      | |- context [validate_data ?c ?x ?st] =>
          destruct (validate_data c x st) as [[] ?| |]
      end
    | match goal with
      | |- context [match Condition e with _ => _ end] => destruct (Condition e)
      end
    | match goal with
      | |- context [if ?b then _ else _] => destruct b
      end ];
    unfold modify, ret; cbn);
    try discriminate;
    intros [= <- <-]; cbn; repeat split; auto.
Qed.

(** X16. Whenever the judge returns, the verdict of its result is [Pass] or
    [Fail] and nothing else; a pass carries no message and a failure always
    carries one.  The result names the step, the command, its title and the
    text sent as they were handed in, holds the duration handed in, and is
    stamped with the first reading of the clock; the state manager is not
    touched. *)
Theorem verdict_is_pass_or_fail (sn cid ti cs : string) (ref : Z)
    (e : CommandEntry) (response : option string) (d : Q) (s s' : Sys)
    (res : TestResult) :
  judge_response sn cid ti cs ref e response d s = Ret res s' ->
  (result res = "Pass" /\ error_message res = None
   \/ result res = "Fail" /\ is_Some (error_message res))
  /\ step_name res = sn /\ command_id res = cid /\ title res = ti
  /\ command_sent res = cs /\ duration res = d
  /\ timestamp res = clock (world s) (ticks (world s))
  /\ state_manager s' = state_manager s.
Proof. apply judge_response_shape. Qed.

Lemma verdict_is_pass_or_fail_witness :
  result (judged "Step1" "Restore" "Restore defaults" "restore"
            "[restore+ok] anything" 1
            (clock (world sample_sys) (ticks (world sample_sys)))
            (PyStr "N/A") true "") = "Pass"
  /\ state_manager (with_world tick_taken sample_sys) = state_manager sample_sys.
Proof.
  assert (judge_response "Step1" "Restore" "Restore defaults" "restore" 9
            restore_entry (Some "[restore+ok] anything") 1 sample_sys
          = Ret (judged "Step1" "Restore" "Restore defaults" "restore"
                   "[restore+ok] anything" 1
                   (clock (world sample_sys) (ticks (world sample_sys)))
                   (PyStr "N/A") true "")
                (with_world tick_taken sample_sys)) as J.
  { apply ret_final. vm_compute. reflexivity. }
  destruct (verdict_is_pass_or_fail _ _ _ _ _ _ _ _ _ _ _ J)
    as (_ & _ & _ & _ & _ & _ & _ & Hm).
  split; [reflexivity | exact Hm].
Defined.

(** ** The transport, further *)

(** X17. [send_command] of [Process_Control_20251201.py] always returns: it
    never raises and never blocks.  It opens the port once and is counted as
    one send; the state manager and the command library are not touched.
    The reply is absent whenever the port cannot be opened or written,
    nothing is waiting after the settle delay, or the read or the decoding
    fails; otherwise it is the line read, stripped of white space at both
    ends. *)
Theorem send_command_never_raises (command : string) (s : Sys) :
  exists reply s',
    send_command command s = Ret reply s'
    /\ state_manager s' = state_manager s
    /\ command_library s' = command_library s
    /\ calls (world s') = S (calls (world s))
    /\ sent (events (world s')) = (sent (events (world s)) ++ [command])%list
    /\ (open_error (port (world s) (calls (world s))) <> None
        \/ write_error (port (world s) (calls (world s))) <> None
        \/ in_waiting (port (world s) (calls (world s))) = Ok 0%nat
        \/ (exists e, in_waiting (port (world s) (calls (world s))) = Err e)
        \/ (exists e, readline_decoded (port (world s) (calls (world s))) = Err e) ->
        reply = None)
    /\ (forall n line,
          open_error (port (world s) (calls (world s))) = None ->
          write_error (port (world s) (calls (world s))) = None ->
          in_waiting (port (world s) (calls (world s))) = Ok (S n) ->
          readline_decoded (port (world s) (calls (world s))) = Ok line ->
          reply = Some (PyString.strip line)).
Proof.
  destruct (send_command_returns command s)
    as (s' & E & Hm & Hl & _ & _ & _ & _ & _ & _ & _ & Hc & Hs).
  eexists _, s'. split; [exact E|]. repeat split; auto.
  - unfold transport_reply.
    destruct (port (world s) (calls (world s))) as [oe we iw rd]. cbn.
    intros [H|[H|[H|[[e H]|[e H]]]]]; subst;
      destruct oe, we; try congruence; try reflexivity;
      destruct iw as [[|n]|]; try congruence; try reflexivity.
  - intros n line Ho Hw Hi Hr. unfold transport_reply.
    now rewrite Ho, Hw, Hi, Hr.
Qed.

(** [send_command] of [UART_communication.py] never hands back a reply:
    when it returns, it returns nothing, whatever the device sent.  It
    handles [SerialException] alone, so any other exception of the port
    goes on to the caller. *)
Theorem legacy_send_command_never_replies (command : string) (s : Sys) :
  match Legacy.send_command command s with
  | Ret reply _ => reply = None
  | Raise e _ =>
      e <> SerialException
      /\ (open_error (port (world s) (calls (world s))) = Some e
          \/ write_error (port (world s) (calls (world s))) = Some e)
  | Hang _ => False
  end.
Proof.
  unfold Legacy.send_command, bind, try_except, gets, modify, emit, time_sleep,
    lift, ret, raise. cbn.
  destruct (port (world s) (calls (world s))) as [[[]|] [[]|] iw rd]; cbn;
    try reflexivity; (split; [discriminate | auto]).
Qed.

Lemma lstrip_start (sp : ascii -> bool) (s : string) :
  starts_with sp (PyString.lstrip sp s) = false.
Proof.
  induction s as [|c r IH]; [reflexivity|]. cbn.
  destruct (sp c) eqn:Hc; [exact IH|]. cbn. exact Hc.
Qed.

Lemma rstrip_cons (sp : ascii -> bool) (c : ascii) (r : string) :
  PyString.rstrip sp (String c r)
  = match PyString.rstrip sp r with
    | EmptyString => if sp c then EmptyString else String c EmptyString
    | String c' r' => String c (String c' r')
    end.
Proof. cbn. destruct (PyString.rstrip sp r); reflexivity. Qed.

Lemma rstrip_end (sp : ascii -> bool) (s : string) :
  ends_with sp (PyString.rstrip sp s) = false.
Proof.
  induction s as [|c r IH]; [reflexivity|]. rewrite rstrip_cons.
  destruct (PyString.rstrip sp r) as [|c' r'].
  - destruct (sp c) eqn:Hc; [reflexivity|]. cbn. exact Hc.
  - exact IH.
Qed.

Lemma rstrip_start (sp : ascii -> bool) (s : string) :
  starts_with sp s = false -> starts_with sp (PyString.rstrip sp s) = false.
Proof.
  destruct s as [|c r]; [reflexivity|]. cbn [starts_with]. intros Hc.
  rewrite rstrip_cons. destruct (PyString.rstrip sp r); [rewrite Hc|]; exact Hc.
Qed.

Lemma lstrip_fixed (sp : ascii -> bool) (s : string) :
  starts_with sp s = false -> PyString.lstrip sp s = s.
Proof. destruct s as [|c r]; [reflexivity|]. cbn. now intros ->. Qed.

Lemma rstrip_fixed (sp : ascii -> bool) (s : string) :
  ends_with sp s = false -> PyString.rstrip sp s = s.
Proof.
  induction s as [|c r IH]; [reflexivity|]. intros H. rewrite rstrip_cons.
  destruct r as [|c' r'].
  - cbn in *. now rewrite H.
  - rewrite IH by exact H. reflexivity.
Qed.

Lemma strip_clean (line : string) :
  starts_with PyString.is_space (PyString.strip line) = false
  /\ ends_with PyString.is_space (PyString.strip line) = false
  /\ PyString.strip (PyString.strip line) = PyString.strip line.
Proof.
  unfold PyString.strip.
  assert (starts_with PyString.is_space
            (PyString.rstrip PyString.is_space
               (PyString.lstrip PyString.is_space line)) = false) as Hs
    by (apply rstrip_start, lstrip_start).
  pose proof (rstrip_end PyString.is_space
                (PyString.lstrip PyString.is_space line)) as He.
  split; [exact Hs|]. split; [exact He|].
  rewrite (lstrip_fixed _ _ Hs). now apply rstrip_fixed.
Qed.

(** X18. A reply that [send_command] of [Process_Control_20251201.py] hands
    back never starts or ends with white space (the line terminator
    included): stripping it again changes nothing.  It can be the empty
    string, when the line held white space only. *)
Theorem reply_is_stripped (command reply : string) (s s' : Sys) :
  send_command command s = Ret (Some reply) s' ->
  starts_with PyString.is_space reply = false
  /\ ends_with PyString.is_space reply = false
  /\ PyString.strip reply = reply.
Proof.
  intros H. destruct (send_command_returns command s) as (s1 & E & _).
  rewrite E in H. injection H as H _. unfold transport_reply in H.
  destruct (open_error _); [discriminate|].
  destruct (write_error _); [discriminate|].
  destruct (in_waiting _) as [[|n]|]; try discriminate.
  destruct (readline_decoded _) as [line|]; [|discriminate].
  injection H as <-. apply strip_clean.
Qed.

Lemma reply_is_stripped_witness :
  PyString.strip "[time_tick+ok]" = "[time_tick+ok]"
  /\ returned (send_command "time_tick" (answering_sys ("  [time_tick+ok] " ++ crlf)))
     = Some (Some "[time_tick+ok]").
Proof.
  assert (returned (send_command "time_tick"
                      (answering_sys ("  [time_tick+ok] " ++ crlf)))
          = Some (Some "[time_tick+ok]")) as R by (vm_compute; reflexivity).
  split; [|exact R].
  apply ret_final in R.
  exact (proj2 (proj2 (reply_is_stripped _ _ _ _ R))).
Defined.

(** ** The loop, further *)

Lemma extends_results_refl (m : TestStateManager) : extends_results m m.
Proof.
  exists []. rewrite app_nil_r. unfold tally. cbn.
  repeat split; auto; lia.
Qed.

Lemma extends_results_trans (m1 m2 m3 : TestStateManager) :
  extends_results m1 m2 -> extends_results m2 m3 -> extends_results m1 m3.
Proof.
  intros (n1 & R1 & F1 & T1 & P1 & L1 & S1 & B1 & E1 & C1)
         (n2 & R2 & F2 & T2 & P2 & L2 & S2 & B2 & E2 & C2).
  exists (n1 ++ n2)%list.
  rewrite R2, R1, T2, T1, P2, P1, L2, L1, S2, S1, B2, B1, E2, E1, C2, C1,
    !tally_app, length_app, <- app_assoc.
  repeat split; auto; try lia. now apply Forall_app.
Qed.

Lemma extends_results_consistent (m m' : TestStateManager) :
  extends_results m m' -> consistent m -> consistent m'.
Proof.
  intros (new & R & F & T & P & L & S & _) (Ct & Cp & Cf & Cs).
  unfold consistent. rewrite R, T, P, L, S, Ct, Cp, Cf, Cs,
    !tally_app, tally_other_app, length_app.
  repeat split; try lia.
  assert (tally_other new = 0) as ->; [|lia].
  clear -F. unfold tally_other. induction F as [|r l Hr _ IH]; [reflexivity|].
  rewrite filter_cons. case_decide; [|exact IH]. tauto.
Qed.

(** One item that returns either leaves the manager as it was or adds one
    result, a pass or a failure. *)
Lemma run_item_extends (item : string * option Z) (s s' : Sys) :
  lock_free s ->
  run_item item s = Ret tt s' ->
  extends_results (state_manager s) (state_manager s').
Proof.
  intros Hl. destruct item as [name [n|]]; unfold run_item; cbn.
  2:{ intros [= <-]. apply extends_results_refl. }
  intros H. apply bind_ret_inv in H as (r & s1 & T & H).
  pose proof (tame_run_test_task name n s) as [_ Hm]. rewrite T in Hm. cbn in Hm.
  destruct r as [res|].
  2:{ injection H as <-. rewrite Hm. apply extends_results_refl. }
  assert (result res = "Pass" \/ result res = "Fail") as Hv.
  { destruct (stop_at (world s) (polls (world s))) eqn:Hs.
    { rewrite (run_test_task_stopped name n s Hs) in T. discriminate. }
    destruct (command_library s !! n) as [e|] eqn:Hf.
    2:{ rewrite (run_test_task_missing name n s Hs Hf) in T. discriminate. }
    destruct (run_test_task_found name n e s Hs Hf) as (s2 & E & _).
    rewrite E in T. apply bind_ret_inv in T as (r & s3 & J & [= -> _]).
    apply judge_response_shape in J as ([[? _]|[? _]] & _); auto. }
  assert (lock_free s1) as Hl1 by (unfold lock_free in *; congruence).
  rewrite (add_result_free res s1 Hl1) in H. injection H as <-. cbn.
  rewrite Hm. exists [res]. destruct (tally_one res) as (T1 & T2 & _).
  rewrite T1, T2. unfold record_result. cbn.
  destruct Hv as [Hv|Hv]; rewrite Hv; cbn; repeat split; auto; lia.
Qed.

Lemma run_items_extends (items : TestStep) (s s' : Sys) :
  lock_free s ->
  run_items items s = Ret tt s' ->
  extends_results (state_manager s) (state_manager s').
Proof.
  revert s. induction items as [|item rest IH]; intros s Hl H.
  - injection H as <-. apply extends_results_refl.
  - change (bind (run_item item) (fun _ => run_items rest) s = Ret tt s') in H.
    apply bind_ret_inv in H as ([] & s1 & H1 & H2).
    destruct (run_item_ret item s s1 Hl H1) as (Hl1 & _).
    eapply extends_results_trans;
      [exact (run_item_extends item s s1 Hl H1) | exact (IH s1 Hl1 H2)].
Qed.

Lemma run_steps_extends (steps : list TestStep) (s s' : Sys) :
  lock_free s ->
  run_steps steps s = Ret tt s' ->
  extends_results (state_manager s) (state_manager s')
  /\ (current_state (state_manager s') = current_state (state_manager s)
      \/ current_state (state_manager s') = STOPPED).
Proof.
  revert s. induction steps as [|step rest IH]; intros s Hl H.
  - injection H as <-. split; [apply extends_results_refl | auto].
  - cbn [run_steps] in H. unfold bind at 1 in H. rewrite is_set_poll in H.
    destruct (stop_at (world s) (polls (world s))).
    + rewrite set_state_free in H by exact Hl. injection H as <-. cbn.
      split; [|auto]. exists []. rewrite app_nil_r. unfold tally. cbn.
      repeat split; auto; lia.
    + apply bind_ret_inv in H as ([] & s1 & H1 & H2).
      assert (lock_free (with_world poll_taken s)) as Hl0 by exact Hl.
      destruct (run_items_ret step _ s1 Hl0 H1) as (Hl1 & _ & C1 & _).
      pose proof (run_items_extends step _ s1 Hl0 H1) as X1.
      destruct (IH s1 Hl1 H2) as (X2 & C2).
      split; [eapply extends_results_trans; eauto|].
      cbn in C1. destruct C2 as [C2|C2]; [left | right]; congruence.
Qed.

(** X19. However the step loop ends when it returns, it has only added
    results behind those that were there, each a pass or a failure, and the
    counters of all, passed and failed results moved by their numbers; the
    counter of skipped steps, the start and end times and the plan name did
    not move, and the state is the one before or [STOPPED].  Counters that
    said what the list holds still do. *)
Theorem step_loop_only_appends (steps : list TestStep) (s s' : Sys) :
  lock_free s ->
  run_steps steps s = Ret tt s' ->
  extends_results (state_manager s) (state_manager s')
  /\ (current_state (state_manager s') = current_state (state_manager s)
      \/ current_state (state_manager s') = STOPPED)
  /\ lock_free s'
  /\ (consistent (state_manager s) -> consistent (state_manager s')).
Proof.
  intros Hl H. destruct (run_steps_extends steps s s' Hl H) as (X & C).
  destruct (run_steps_later steps s s' Hl H) as (Hl' & _).
  split; [exact X|]. split; [exact C|]. split; [exact Hl'|].
  intros Hc. eapply extends_results_consistent; eauto.
Qed.

Lemma step_loop_only_appends_witness :
  extends_results (state_manager (stopping_sys 4))
    (state_manager (final (run_steps plan_of_three (stopping_sys 4))))
  /\ consistent (state_manager (final (run_steps plan_of_three (stopping_sys 4)))).
Proof.
  assert (run_steps plan_of_three (stopping_sys 4)
          = Ret tt (final (run_steps plan_of_three (stopping_sys 4)))) as R
    by (apply ret_final; vm_compute; reflexivity).
  destruct (step_loop_only_appends plan_of_three (stopping_sys 4) _ eq_refl R)
    as (X & _ & _ & C).
  split; [exact X | apply C, consistent_new].
Defined.

(** X20. Once the stop event is set and stays set, the items that are left
    in a step do nothing but poll it: each item that names a command polls
    once, nothing is sent, nothing is logged, and the state manager and the
    command library are as they were. *)
Theorem items_after_stop_do_nothing (items : TestStep) (s : Sys) :
  (forall n, (polls (world s) <= n)%nat -> stop_at (world s) n = true) ->
  exists s',
    run_items items s = Ret tt s'
    /\ state_manager s' = state_manager s
    /\ command_library s' = command_library s
    /\ calls (world s') = calls (world s)
    /\ events (world s') = events (world s)
    /\ stop_at (world s') = stop_at (world s)
    /\ polls (world s') = (polls (world s) + named items)%nat.
Proof.
  revert s. induction items as [|[name [n|]] rest IH]; intros s Hs.
  - exists s. unfold named. cbn. repeat split; auto.
  - assert (run_item (name, Some n) s = Ret tt (with_world poll_taken s)) as R.
    { unfold run_item. cbn. unfold bind.
      rewrite (run_test_task_stopped name n s); [reflexivity|].
      apply Hs. lia. }
    destruct (IH (with_world poll_taken s)) as (s' & R' & Hm & Hl & Hc & He & Ho & Hp).
    { intros k Hk. cbn in Hk |- *. apply Hs. lia. }
    exists s'. rewrite (run_items_next _ rest _ _ R).
    split; [exact R'|]. rewrite Hm, Hl, Hc, He, Ho, Hp. unfold named. cbn.
    repeat split; lia.
  - destruct (IH s Hs) as (s' & R' & Hm & Hl & Hc & He & Ho & Hp).
    exists s'. split.
    { change (bind (run_item (name, None)) (fun _ => run_items rest) s = Ret tt s').
      exact R'. }
    rewrite Hm, Hl, Hc, He, Ho, Hp. unfold named. cbn. repeat split.
Qed.

Lemma items_after_stop_do_nothing_witness :
  exists s',
    run_items [("Step1", Some 8); ("Step2", None); ("Step3", Some 8)]
      (stopping_sys 0) = Ret tt s'
    /\ calls (world s') = 0%nat
    /\ polls (world s') = 2%nat.
Proof.
  destruct (items_after_stop_do_nothing
              [("Step1", Some 8); ("Step2", None); ("Step3", Some 8)]
              (stopping_sys 0)) as (s' & R & _ & _ & Hc & _ & _ & Hp).
  - intros n _. reflexivity.
  - exists s'. split; [exact R|]. rewrite Hc, Hp. split; reflexivity.
Defined.

Lemma condition_ok_empty : condition_ok ∅.
Proof. intros H. rewrite lookup_empty in H. discriminate. Qed.

Lemma condition_ok_expected (c : gmap string pyval) (v : pyval) :
  condition_ok c -> condition_ok (<["expected" := v]> c).
Proof.
  unfold condition_ok, dict_get_default.
  rewrite !lookup_insert_ne by discriminate. auto.
Qed.

Lemma library_ok_alter (lib : gmap Z CommandEntry) (c : gmap string pyval) (ref : Z) :
  library_ok lib -> condition_ok c -> library_ok (alter (set_condition c) ref lib).
Proof.
  intros Hl Hc n e c' Hn He. rewrite lookup_alter in Hn. case_decide.
  - destruct (lib !! ref) as [e0|]; cbn in Hn; [|discriminate].
    injection Hn as <-. cbn in He. injection He as <-. exact Hc.
  - eapply Hl; eauto.
Qed.

Lemma is_type_lookup (c : gmap string pyval) (name : string) :
  is_type (dict_get c "type") name = true -> c !! "type" = Some (PyStr name).
Proof.
  unfold is_type, dict_get, str_eq_pyval.
  destruct (c !! "type") as [[|t|z]|]; cbn; try discriminate.
  rewrite String.eqb_eq. now intros ->.
Qed.

(** On a condition whose bounds convert, the validator returns; it changes
    nothing but the count of clock readings. *)
Lemma validate_data_returns (c : gmap string pyval) (a : string) (s : Sys) :
  condition_ok c ->
  exists b s', validate_data c a s = Ret b s'
               /\ (s' = s \/ s' = with_world tick_taken s).
Proof.
  intros Hc. unfold validate_data.
  destruct (is_type (dict_get c "type") "equal"); [eexists _, _; split; [reflexivity | auto]|].
  destruct (is_type (dict_get c "type") "between") eqn:Hb.
  { apply is_type_lookup in Hb. destruct (Hc Hb) as [[low Hl] [high Hh]].
    rewrite Hl, Hh. unfold bind, try_except, lift, py_int, ret, raise. cbn.
    destruct (PyString.to_int a); eexists _, _; split; try reflexivity; auto. }
  destruct (is_type (dict_get c "type") "valid timestamp").
  { unfold is_valid_timestamp, bind, time_time, ret.
    destruct (PyString.to_int a); eexists _, _; split; try reflexivity; auto. }
  destruct (is_type (dict_get c "type") "valid format_mac");
    [eexists _, _; split; [reflexivity | auto]|].
  destruct (is_type (dict_get c "type") "valid format_rcode");
    [eexists _, _; split; [reflexivity | auto]|].
  destruct (is_deferred (dict_get c "type"));
    eexists _, _; split; try reflexivity; auto.
Qed.

Lemma judge_deferred (sn cid ti cs : string) (ref : Z) (e : CommandEntry)
    (r : string) (d : Q) (s : Sys) :
  r <> "" ->
  (classify_data r).1 = default "" (Response_Expectation e) ->
  is_deferred (dict_get (default ∅ (Condition e)) "type") = true ->
  exists res, judge_response sn cid ti cs ref e (Some r) d s
              = Ret res (with_world tick_taken s).
Proof.
  intros Hr Hp Hd. unfold judge_response, bind, time_time. cbn.
  destruct (String.eqb_spec r "") as [|_]; [contradiction|]. cbn.
  destruct (classify_data r) as [p a]. cbn in *. subst p.
  rewrite String.eqb_refl. cbn. rewrite Hd. eexists. reflexivity.
Qed.

Lemma judge_payload_free (sn cid ti cs : string) (ref : Z) (e : CommandEntry)
    (r : string) (d : Q) (s : Sys) :
  r <> "" ->
  (classify_data r).1 = default "" (Response_Expectation e) ->
  str_truthy (classify_data r).2 = false ->
  is_deferred (dict_get (default ∅ (Condition e)) "type") = false ->
  exists res, judge_response sn cid ti cs ref e (Some r) d s
              = Ret res (with_world tick_taken s).
Proof.
  intros Hr Hp Ha Hd. unfold judge_response, bind, time_time. cbn.
  destruct (String.eqb_spec r "") as [|_]; [contradiction|]. cbn.
  destruct (classify_data r) as [p a]. cbn in *. subst p.
  rewrite String.eqb_refl. cbn. rewrite Hd, Ha. eexists. reflexivity.
Qed.

(** With bounds that convert, the judge returns, and the library keeps
    bounds that convert. *)
Lemma judge_response_returns (sn cid ti cs : string) (ref : Z) (e : CommandEntry)
    (response : option string) (d : Q) (s : Sys) :
  condition_ok (default ∅ (Condition e)) ->
  library_ok (command_library s) ->
  exists res s',
    judge_response sn cid ti cs ref e response d s = Ret res s'
    /\ library_ok (command_library s').
Proof.
  intros Hc Hl.
  destruct (str_truthy response) eqn:Hr.
  2:{ eexists _, _. split; [apply judge_no_response; exact Hr | exact Hl]. }
  destruct response as [r|]; [|discriminate].
  assert (r <> "") as Hne.
  { intros ->. discriminate. }
  destruct (String.eqb_spec (classify_data r).1 (default "" (Response_Expectation e)))
    as [Hp|Hp].
  2:{ eexists _, _. split; [apply judge_prefix_mismatch; assumption | exact Hl]. }
  destruct (is_deferred (dict_get (default ∅ (Condition e)) "type")) eqn:Hd.
  { destruct (judge_deferred sn cid ti cs ref e r d s Hne Hp Hd) as (res & J).
    eexists _, _. split; [exact J | exact Hl]. }
  destruct (str_truthy (classify_data r).2) eqn:Ha.
  2:{ destruct (judge_payload_free sn cid ti cs ref e r d s Hne Hp Ha Hd) as (res & J).
      eexists _, _. split; [exact J | exact Hl]. }
  rewrite (judge_validates sn cid ti cs ref e r d s Hne Hp Ha Hd).
  set (v := expected_for (user_inputs s) cid).
  assert (condition_ok (condition_for e v)) as Hc'.
  { unfold condition_for. destruct (truthy v); [apply condition_ok_expected|]; exact Hc. }
  assert (library_ok (command_library (before_validation ref e v s))) as Hl'.
  { unfold before_validation. destruct (truthy v) eqn:Ht; [|exact Hl].
    destruct (Condition e) as [c|] eqn:He; [|exact Hl]. cbn.
    apply library_ok_alter; [exact Hl|]. apply condition_ok_expected. exact Hc. }
  destruct (validate_data_returns (condition_for e v)
              (default "" (classify_data r).2) (before_validation ref e v s) Hc')
    as (b & s' & V & Hs).
  rewrite V. eexists _, _. split; [reflexivity|].
  destruct Hs as [-> | ->]; exact Hl'.
Qed.

Lemma run_item_returns (item : string * option Z) (s : Sys) :
  lock_free s ->
  library_ok (command_library s) ->
  exists s', run_item item s = Ret tt s' /\ lock_free s'
             /\ library_ok (command_library s').
Proof.
  intros Hl Hk. destruct item as [name [n|]]; unfold run_item; cbn.
  2:{ exists s. auto. }
  unfold bind.
  destruct (stop_at (world s) (polls (world s))) eqn:Hs.
  { rewrite (run_test_task_stopped name n s Hs). eexists. split; [reflexivity|]. auto. }
  destruct (command_library s !! n) as [e|] eqn:Hf.
  2:{ rewrite (run_test_task_missing name n s Hs Hf). eexists.
      split; [reflexivity|]. auto. }
  destruct (run_test_task_found name n e s Hs Hf) as (s2 & E & Hm & Hlib & _).
  rewrite E.
  assert (condition_ok (default ∅ (Condition e))) as Hc.
  { destruct (Condition e) as [c|] eqn:He; [|apply condition_ok_empty].
    exact (Hk n e c Hf He). }
  assert (library_ok (command_library s2)) as Hk2 by (rewrite Hlib; exact Hk).
  set (d := (clock _ _ - clock _ _)%Q).
  destruct (judge_response_returns name (ID e) (Title e) (Command_Sends e) n e
              (transport_reply (port (world s) (calls (world s)))) d s2 Hc Hk2)
    as (res & s3 & J & Hk3).
  unfold bind. rewrite J. cbn.
  assert (state_manager s3 = state_manager s2) as Hm3.
  { pose proof (tame_judge_response name (ID e) (Title e) (Command_Sends e) n e
                  (transport_reply (port (world s) (calls (world s)))) d s2) as [_ T].
    now rewrite J in T. }
  assert (lock_free s3) as Hl3 by (unfold lock_free in *; congruence).
  destruct (add_result_effect res s3 Hl3) as (s' & A & _ & Hlib' & _ & _ & Hl' & _).
  exists s'. split; [exact A|]. split; [exact Hl'|]. now rewrite Hlib'.
Qed.

Lemma run_items_returns (items : TestStep) (s : Sys) :
  lock_free s ->
  library_ok (command_library s) ->
  exists s', run_items items s = Ret tt s' /\ lock_free s'
             /\ library_ok (command_library s').
Proof.
  revert s. induction items as [|item rest IH]; intros s Hl Hk.
  - exists s. auto.
  - destruct (run_item_returns item s Hl Hk) as (s1 & R & Hl1 & Hk1).
    destruct (IH s1 Hl1 Hk1) as (s' & R' & Hl' & Hk').
    exists s'. rewrite (run_items_next _ rest _ _ R). auto.
Qed.


Lemma sample_library_ok : library_ok (command_library sample_sys).
Proof.
  intros n e c Hn He Ht.
  change (command_library sample_sys) with (<[8 := sample_entry]> (∅ : gmap Z CommandEntry)) in Hn.
  destruct (decide (n = 8)) as [->|Hne].
  - rewrite lookup_insert_eq in Hn. injection Hn as <-. cbn in He. injection He as <-.
    split; [exists 10 | exists 20]; vm_compute; reflexivity.
  - rewrite lookup_insert_ne, lookup_empty in Hn by congruence. discriminate.
Qed.


(** X22. A range condition whose lower bound does not convert to an integer
    ends the run at the first reply that reaches the validator: when the
    reply of such a command has the expected prefix and a value, the
    exception of the conversion leaves the loop over the items, no result is
    recorded for the step, and the items that follow are not run. *)
Theorem bad_bound_aborts_the_items (name : string) (n : Z) (e : CommandEntry)
    (c : gmap string pyval) (x : exn) (r : string) (rest : TestStep) (s : Sys) :
  stop_at (world s) (polls (world s)) = false ->
  command_library s !! n = Some e ->
  Condition e = Some c ->
  c !! "type" = Some (PyStr "between") ->
  py_int (dict_get_default c "low" (PyInt 0)) = Err x ->
  transport_reply (port (world s) (calls (world s))) = Some r ->
  r <> "" ->
  (classify_data r).1 = default "" (Response_Expectation e) ->
  str_truthy (classify_data r).2 = true ->
  exists s',
    run_items ((name, Some n) :: rest) s = Raise x s'
    /\ state_manager s' = state_manager s
    /\ calls (world s') = S (calls (world s)).
Proof.
  intros Hs Hf Hc Hty Hlow Hr Hne Hp Ha.
  destruct (run_test_task_found name n e s Hs Hf)
    as (s2 & E & Hm & _ & _ & _ & _ & _ & Hcalls & _).
  rewrite Hr in E. set (d := (clock _ _ - clock _ _)%Q) in E.
  assert (is_deferred (dict_get (default ∅ (Condition e)) "type") = false) as Hd.
  { rewrite Hc. unfold dict_get. cbn [default]. change (id c) with c.
    rewrite Hty. reflexivity. }
  pose proof (judge_validates name (ID e) (Title e) (Command_Sends e) n e r d s2
                Hne Hp Ha Hd) as J. cbv zeta in J.
  set (v := expected_for (user_inputs s2) (ID e)) in J.
  assert (validate_data (condition_for e v) (default "" (classify_data r).2)
            (before_validation n e v s2)
          = Raise x (before_validation n e v s2)) as V.
  { unfold validate_data, dict_get, condition_for. rewrite Hc. cbn [default].
    change (id c) with c.
    destruct (truthy v).
    - unfold dict_get_default in *.
      rewrite (lookup_insert_ne c "expected" "type") by discriminate.
      rewrite (lookup_insert_ne c "expected" "low") by discriminate.
      rewrite Hty, Hlow. reflexivity.
    - rewrite Hty, Hlow. reflexivity. }
  rewrite V in J.
  exists (before_validation n e v s2). split.
  - change (bind (run_item (name, Some n)) (fun _ => run_items rest) s
            = Raise x (before_validation n e v s2)).
    unfold run_item. cbn. unfold bind at 1. unfold bind at 1. rewrite E.
    unfold bind at 1. rewrite J. reflexivity.
  - unfold before_validation. rewrite Hc.
    destruct (truthy v); cbn; rewrite Hm, Hcalls; split; reflexivity.
Qed.

Lemma bad_bound_aborts_the_items_witness :
  exists s',
    run_items [("Step1", Some 5); ("Step2", Some 5)] bad_bound_sys
    = Raise ValueError s'
    /\ state_manager s' = state_manager bad_bound_sys.
Proof.
  destruct (bad_bound_aborts_the_items "Step1" 5 bad_bound_entry
              (<["type" := PyStr "between"]> (<["low" := PyStr "ten"]> ∅))
              ValueError "[bat+ok] 15" [("Step2", Some 5)] bad_bound_sys)
    as (s' & R & Hm & _).
  - vm_compute. reflexivity.
  - vm_compute. reflexivity.
  - reflexivity.
  - vm_compute. reflexivity.
  - vm_compute. reflexivity.
  - vm_compute. reflexivity.
  - discriminate.
  - vm_compute. reflexivity.
  - vm_compute. reflexivity.
  - exists s'. split; [exact R | exact Hm].
Defined.


(** ** The earlier runner and validators *)

(** X24. The earlier [get_user_defined_condition] and the later
    [get_expected_value] agree on the commands they know: the earlier one
    gives a condition exactly for the four identity commands, and that
    condition is an equality with the very value that the later one hands
    back.  The later [validate_data], given that condition, passes a value
    exactly when it is that value as a string. *)
Theorem identity_conditions_agree (inputs : gmap string pyval) (command_id : string) :
  match LegacyRunner.get_user_defined_condition inputs command_id with
  | Some c =>
      is_Some (expected_key command_id)
      /\ c !! "type" = Some (PyStr "equal")
      /\ c !! "expected" = Some (expected_for inputs command_id)
      /\ (forall (a : string) (s : Sys),
            validate_data c a s
            = Ret (str_eq_pyval a (expected_for inputs command_id)) s)
  | None => expected_key command_id = None /\ expected_for inputs command_id = PyNone
  end.
Proof.
  unfold LegacyRunner.get_user_defined_condition, expected_for, expected_key.
  repeat (destruct (String.eqb command_id _);
          [ split; [eauto|]; split; [reflexivity|]; split; [reflexivity|];
            intros a s; unfold validate_data, dict_get;
            rewrite lookup_insert_eq; cbn;
            rewrite lookup_insert_ne by discriminate;
            rewrite lookup_insert_eq; reflexivity |]).
  split; reflexivity.
Qed.

Lemma is_prefix_spec (p s : string) :
  is_prefix p s = true <-> exists b, s = p ++ b.
Proof.
  revert s. induction p as [|a p IH]; intros s; cbn.
  - split; [intros _; exists s; reflexivity | reflexivity].
  - destruct s as [|c s].
    + split; [discriminate | intros [b H]; rewrite append_cons in H; discriminate].
    + rewrite andb_true_iff, IH. split.
      * intros [Hc [b ->]]. apply Ascii.eqb_eq in Hc as ->. exists b. reflexivity.
      * intros [b H]. rewrite append_cons in H. injection H as -> ->.
        split; [apply Ascii.eqb_refl | eauto].
Qed.

Lemma contains_spec (sub s : string) :
  contains sub s = true <-> exists a b, s = a ++ sub ++ b.
Proof.
  induction s as [|c s IH].
  - cbn. rewrite orb_false_r, is_prefix_spec. split.
    + intros [b H]. exists "", b. exact H.
    + intros (a & b & H). destruct a as [|? ?]; [|rewrite append_cons in H; discriminate].
      exists b. exact H.
  - cbn [contains]. rewrite orb_true_iff, is_prefix_spec, IH. split.
    + intros [[b H]|(a & b & ->)].
      * exists "", b. exact H.
      * exists (String c a), b. reflexivity.
    + intros (a & b & H). destruct a as [|c' a].
      * left. exists b. exact H.
      * right. rewrite append_cons in H. injection H as -> ->. eauto.
Qed.

(** X25. The validators of [Conditional.py] for restore and therapy stop
    accept a response exactly when the expected status occurs somewhere in
    it; the two are the same test, and an empty status is found in every
    response.  The validator for asynchronous replies accepts exactly the
    responses that hold the marker [[db_dump+ok]], and the one for therapy
    start those that hold [[therapy on+ok]], whatever the duration. *)
Theorem marker_validators (response status : string) (duration : Z) :
  (LegacyRunner.validate_restore response status = true
   <-> exists a b, response = a ++ status ++ b)
  /\ LegacyRunner.validate_therapy_stop response status
     = LegacyRunner.validate_restore response status
  /\ LegacyRunner.validate_restore response "" = true
  /\ (LegacyRunner.validate_asynchrony response = true
      <-> exists a b, response = a ++ "[db_dump+ok]" ++ b)
  /\ (LegacyRunner.validate_therapy_start response duration = true
      <-> exists a b, response = a ++ "[therapy on+ok]" ++ b).
Proof.
  split; [apply contains_spec|]. split; [reflexivity|].
  split; [apply contains_spec; exists "", response; reflexivity|].
  split; apply contains_spec.
Qed.

(** ** Loading the user inputs *)

(** X26. [load_user_inputs] hands back the parsed inputs exactly when the
    file parsed to a dictionary in which each of the five required keys
    holds a non-empty value, and then it hands them back unchanged.  A
    missing file, a file that is no YAML and a dictionary with a required
    key missing or empty all give nothing; an empty file raises [TypeError],
    which the handler does not take. *)
Theorem load_user_inputs_checked (file : yaml_file) :
  (forall data,
     load_user_inputs file = Ok (Some data)
     <-> file = Parsed (Some data)
         /\ Forall (fun key => exists v, data !! key = Some v /\ truthy v = true)
              required_keys)
  /\ (load_user_inputs file = Err TypeError <-> file = Parsed None)
  /\ (forall e, load_user_inputs file = Err e -> e = TypeError).
Proof.
  assert (forall data : gmap string pyval,
            forallb (fun key => match data !! key with
                                | Some v => truthy v
                                | None => false
                                end) required_keys = true
            <-> Forall (fun key => exists v, data !! key = Some v /\ truthy v = true)
                  required_keys) as Hall.
  { intros data. rewrite forallb_forall, Forall_forall. split; intros H key Hk.
    - specialize (H key). rewrite <- list_elem_of_In in H. specialize (H Hk).
      destruct (data !! key) as [v|]; [eauto | discriminate].
    - rewrite <- list_elem_of_In in Hk. destruct (H key Hk) as (v & -> & Hv). exact Hv. }
  split; [|split].
  - intros data. destruct file as [| |[d|]]; cbn [load_user_inputs].
    + split; [discriminate | intros [[=] _]].
    + split; [discriminate | intros [[=] _]].
    + match goal with |- context [forallb ?f required_keys] => destruct (forallb f required_keys) eqn:Hf end.
      * split.
        -- intros [= <-]. split; [reflexivity|]. now apply Hall.
        -- intros [[= <-] _]. reflexivity.
      * split; [discriminate|]. intros [[= <-] F]. apply Hall in F. congruence.
    + split; [discriminate | intros [[=] _]].
  - destruct file as [| |[d|]]; cbn [load_user_inputs]; try (split; discriminate).
    + match goal with |- context [forallb ?f required_keys] => destruct (forallb f required_keys) end; split; discriminate.
    + split; reflexivity.
  - intros e. destruct file as [| |[d|]]; cbn [load_user_inputs]; try discriminate.
    + match goal with |- context [forallb ?f required_keys] => destruct (forallb f required_keys) end; discriminate.
    + now intros [= <-].
Qed.

(** ** The connection handshake *)

Lemma poll_connected (reads : list (attempt string)) :
  Monitor.poll reads = Monitor.Connected
  <-> exists before line after,
        reads = ((Ok <$> before) ++ Ok line :: after)%list
        /\ Monitor.connected_response (PyString.strip line) = true.
Proof.
  induction reads as [|[line|e] rest IH].
  - cbn. split; [discriminate|].
    intros (before & line & after & H & _). destruct before; discriminate.
  - cbn [Monitor.poll]. cbv zeta.
    destruct (String.eqb (PyString.strip line) ">"
              || String.eqb (PyString.strip line) "") eqn:Hskip.
    + assert (Monitor.connected_response (PyString.strip line) = false) as Hno.
      { apply orb_true_iff in Hskip as [H|H]; apply String.eqb_eq in H;
          rewrite H; reflexivity. }
      rewrite IH. split.
      * intros (before & l & after & -> & Hl). exists (line :: before), l, after.
        split; [reflexivity | exact Hl].
      * intros (before & l & after & H & Hl). destruct before as [|b before].
        -- cbn in H. injection H as <- _. congruence.
        -- cbn in H. injection H as _ ->. eauto.
    + destruct (Monitor.connected_response (PyString.strip line)) eqn:Hc.
      * split; [|reflexivity]. intros _. exists [], line, rest.
        split; [reflexivity | exact Hc].
      * rewrite IH. split.
        -- intros (before & l & after & -> & Hl). exists (line :: before), l, after.
           split; [reflexivity | exact Hl].
        -- intros (before & l & after & H & Hl). destruct before as [|b before].
           ++ cbn in H. injection H as <- _. congruence.
           ++ cbn in H. injection H as _ ->. eauto.
  - cbn. split.
    + destruct e; discriminate.
    + intros (before & l & after & H & _). destruct before; discriminate.
Qed.

(** X27. One attempt of the handshake connects exactly when the command was
    written and, before any read fails, some line starts with
    [[time_tick+ok]] once stripped; what stands on the lines before it does
    not matter.  A line that carries the marker after other text (a prompt
    in front of it, say) is not taken. *)
Theorem attempt_connects_on_marker_line (a : Monitor.Attempt) :
  Monitor.attempt_end_of a = Monitor.Connected
  <-> Monitor.write_failure a = None
      /\ exists before line after rest,
           Monitor.lines a = ((Ok <$> before) ++ Ok line :: after)%list
           /\ PyString.strip line = "[time_tick+ok]" ++ rest.
Proof.
  unfold Monitor.attempt_end_of. destruct (Monitor.write_failure a) as [e|].
  - split; [destruct e; discriminate | intros [[=] _]].
  - rewrite poll_connected. split.
    + intros (before & line & after & H & Hc). split; [reflexivity|].
      apply is_prefix_spec in Hc as [rest Hc]. eauto 6.
    + intros (_ & before & line & after & rest & H & Hc).
      exists before, line, after. split; [exact H|].
      apply is_prefix_spec. eauto.
Qed.

Lemma attempts_from_retry (k n i : nat) (port : nat -> Monitor.Attempt)
    (h : Monitor.Handshake) :
  (forall j, (j < k)%nat -> Monitor.attempt_end_of (port (i + j)%nat) = Monitor.Retry) ->
  Monitor.attempts_from (k + n) i port h
  = Monitor.attempts_from n (i + k) port
      {| Monitor.outcome_of := Monitor.outcome_of h;
         Monitor.write_calls := (Monitor.write_calls h + k)%nat;
         Monitor.connection_sets := Monitor.connection_sets h;
         Monitor.delays := (Monitor.delays h + k)%nat |}.
Proof.
  revert i h. induction k as [|k IH]; intros i h Hr.
  - cbn. rewrite !Nat.add_0_r. destruct n; cbn; [reflexivity|].
    destruct (Monitor.attempt_end_of (port i)); reflexivity.
  - cbn [Nat.add Monitor.attempts_from].
    pose proof (Hr 0%nat ltac:(lia)) as H0. rewrite Nat.add_0_r in H0. rewrite H0.
    rewrite IH.
    + cbn. rewrite <- !Nat.add_succ_r. reflexivity.
    + intros j Hj. replace (S i + j)%nat with (i + S j)%nat by lia.
      apply Hr. lia.
Qed.

(** X28. If the first [k] attempts of the handshake end without a
    connection (no line with the marker before the timeout, or a
    [SerialException]) and attempt [k + 1], one of the five, connects, then
    [establish_uart_connection] returns [True] after exactly [k + 1] writes
    of the command and [k] reconnect delays, and sets the connection event
    exactly once. *)
Theorem handshake_connects_at (port : nat -> Monitor.Attempt) (k : nat) :
  (k < Monitor.retry_times)%nat ->
  (forall j, (j < k)%nat -> Monitor.attempt_end_of (port j) = Monitor.Retry) ->
  Monitor.attempt_end_of (port k) = Monitor.Connected ->
  Monitor.establish_uart_connection port
  = {| Monitor.outcome_of := Ok true;
       Monitor.write_calls := S k;
       Monitor.connection_sets := 1;
       Monitor.delays := k |}.
Proof.
  intros Hk Hr Hc. unfold Monitor.establish_uart_connection.
  replace Monitor.retry_times with (k + S (Monitor.retry_times - S k))%nat by lia.
  rewrite attempts_from_retry by exact Hr.
  cbn. rewrite Hc. reflexivity.
Qed.

Lemma handshake_connects_at_witness :
  Monitor.establish_uart_connection Monitor.third_time
  = {| Monitor.outcome_of := Ok true;
       Monitor.write_calls := 3;
       Monitor.connection_sets := 1;
       Monitor.delays := 2 |}.
Proof.
  apply (handshake_connects_at Monitor.third_time 2).
  - unfold Monitor.retry_times. lia.
  - intros j Hj. destruct j as [|[|j]]; [reflexivity | reflexivity | lia].
  - vm_compute. reflexivity.
Defined.

Lemma attempts_from_bounds (n i : nat) (port : nat -> Monitor.Attempt)
    (h : Monitor.Handshake) :
  let h' := Monitor.attempts_from n i port h in
  (Monitor.write_calls h' <= Monitor.write_calls h + n)%nat
  /\ (Monitor.outcome_of h' = Ok true
      -> Monitor.connection_sets h' = S (Monitor.connection_sets h))
  /\ (Monitor.outcome_of h' <> Ok true
      -> Monitor.connection_sets h' = Monitor.connection_sets h)
  /\ (Monitor.outcome_of h' = Ok false
      -> Monitor.write_calls h' = (Monitor.write_calls h + n)%nat
         /\ Monitor.delays h' = (Monitor.delays h + n)%nat
         /\ forall j, (j < n)%nat ->
              Monitor.attempt_end_of (port (i + j)%nat) = Monitor.Retry).
Proof.
  revert i h. induction n as [|n IH]; intros i h; cbn zeta.
  - cbn. repeat split; try lia; try congruence; intros; lia.
  - cbn [Monitor.attempts_from].
    destruct (Monitor.attempt_end_of (port i)) eqn:E.
    + cbn. repeat split; try lia; try congruence; try discriminate.
    + specialize (IH (S i)
        {| Monitor.outcome_of := Monitor.outcome_of h;
           Monitor.write_calls := S (Monitor.write_calls h);
           Monitor.connection_sets := Monitor.connection_sets h;
           Monitor.delays := S (Monitor.delays h) |}).
      cbn zeta in IH. cbn [Monitor.write_calls Monitor.connection_sets Monitor.delays] in IH.
      destruct IH as (Hw & Ht & Hf & Hg).
      split; [lia|]. split; [exact Ht|]. split; [exact Hf|].
      intros Hfalse. destruct (Hg Hfalse) as (H1 & H2 & H3).
      split; [lia|]. split; [lia|].
      intros j Hj. destruct j as [|j].
      * rewrite Nat.add_0_r. exact E.
      * replace (i + S j)%nat with (S i + j)%nat by lia. apply H3. lia.
    + cbn. repeat split; try lia; try congruence; try discriminate.
Qed.

(** X29. Whatever the port does, [establish_uart_connection] writes the
    command at most five times, and it sets the connection event once when
    it returns [True] and never otherwise.  It returns [False] only after
    five attempts that each ended without a connection, with five writes
    and five reconnect delays; an exception other than [SerialException]
    (a reply that is no UTF-8, say) is not handled and ends the call. *)
Theorem handshake_bounded (port : nat -> Monitor.Attempt) :
  let h := Monitor.establish_uart_connection port in
  (Monitor.write_calls h <= 5)%nat
  /\ (Monitor.outcome_of h = Ok true <-> Monitor.connection_sets h = 1%nat)
  /\ (Monitor.outcome_of h <> Ok true -> Monitor.connection_sets h = 0%nat)
  /\ (Monitor.outcome_of h = Ok false
      <-> forall j, (j < 5)%nat -> Monitor.attempt_end_of (port j) = Monitor.Retry)
  /\ (Monitor.outcome_of h = Ok false
      -> Monitor.write_calls h = 5%nat /\ Monitor.delays h = 5%nat)
  /\ (forall e, Monitor.outcome_of h = Err e -> e <> SerialException).
Proof.
  cbn zeta. unfold Monitor.establish_uart_connection.
  pose proof (attempts_from_bounds Monitor.retry_times 0 port
    {| Monitor.outcome_of := Ok false; Monitor.write_calls := 0;
       Monitor.connection_sets := 0; Monitor.delays := 0 |}) as H.
  cbn zeta in H. cbn [Monitor.write_calls Monitor.connection_sets Monitor.delays] in H.
  destruct H as (Hw & Ht & Hf & Hg).
  split; [exact Hw|]. split.
  { split; [exact Ht|]. intros H1.
    match goal with |- ?o = _ => destruct o as [[|]|e] eqn:Ho end;
      [reflexivity | |];
      (rewrite Hf in H1; [discriminate | congruence]). }
  split; [exact Hf|]. split.
  { split.
    - intros H0. destruct (Hg H0) as (_ & _ & H3). exact H3.
    - intros Hr.
      pose proof (attempts_from_retry 5 0 0 port
        {| Monitor.outcome_of := Ok false; Monitor.write_calls := 0;
           Monitor.connection_sets := 0; Monitor.delays := 0 |} Hr) as Hall.
      change (5 + 0)%nat with Monitor.retry_times in Hall. rewrite Hall. reflexivity. }
  split.
  { intros H0. destruct (Hg H0) as (H1 & H2 & _). split; assumption. }
  intros e He.
  assert (forall n i h, Monitor.outcome_of h = Ok false ->
            Monitor.outcome_of (Monitor.attempts_from n i port h) = Err e ->
            e <> SerialException) as Hgen.
  { clear. induction n as [|n IH]; intros i h Hh; cbn [Monitor.attempts_from].
    - cbn. discriminate.
    - destruct (Monitor.attempt_end_of (port i)) eqn:E.
      + cbn. discriminate.
      + apply IH. exact Hh.
      + cbn. intros [= ->]. unfold Monitor.attempt_end_of in E.
        assert (forall x, Monitor.handled x = Monitor.Crashed e -> e <> SerialException) as Hh'.
        { intros x. destruct x; cbn; try discriminate; intros [= <-]; discriminate. }
        destruct (Monitor.write_failure (port i)) as [x|]; [eapply Hh'; exact E|].
        revert E.
        induction (Monitor.lines (port i)) as [|[l|x] r IHr];
          cbn [Monitor.poll]; cbv zeta.
        * discriminate.
        * repeat match goal with
                 | |- context [if ?b then _ else _] => destruct b
                 end; try exact IHr; discriminate.
        * apply Hh'. }
  eapply Hgen; [|exact He]. reflexivity.
Qed.

(** ** The commands of a run *)

Lemma same_commands_refl (lib : gmap Z CommandEntry) : same_commands lib lib.
Proof. intros n. reflexivity. Qed.

Lemma same_commands_trans (a b c : gmap Z CommandEntry) :
  same_commands a b -> same_commands b c -> same_commands a c.
Proof. intros H1 H2 n. now rewrite H2, H1. Qed.

Lemma commands_same (lib lib' : gmap Z CommandEntry) (items : TestStep) :
  same_commands lib lib' -> commands lib' items = commands lib items.
Proof.
  intros H. unfold commands. induction items as [|[name [n|]] rest IH]; cbn.
  - reflexivity.
  - rewrite (H n), IH. reflexivity.
  - exact IH.
Qed.

Lemma commands_app (lib : gmap Z CommandEntry) (a b : TestStep) :
  commands lib (a ++ b)%list = (commands lib a ++ commands lib b)%list.
Proof. unfold commands. apply omap_app. Qed.

Lemma quiet_ret {A : Type} (a : A) : quiet (ret a).
Proof. intros s. split; [reflexivity | apply same_commands_refl]. Qed.

Lemma quiet_raise {A : Type} (e : exn) : quiet (@raise A e).
Proof. intros s. split; [reflexivity | apply same_commands_refl]. Qed.

Lemma quiet_gets {A : Type} (f : Sys -> A) : quiet (gets f).
Proof. intros s. split; [reflexivity | apply same_commands_refl]. Qed.

Lemma quiet_lift {A : Type} (a : attempt A) : quiet (lift a).
Proof. destruct a; [apply quiet_ret | apply quiet_raise]. Qed.

Lemma quiet_time_time : quiet time_time.
Proof. intros s. split; [reflexivity | apply same_commands_refl]. Qed.

Lemma quiet_bind {A B : Type} (m : M A) (f : A -> M B) :
  quiet m -> (forall a, quiet (f a)) -> quiet (bind m f).
Proof.
  intros Hm Hf s. unfold bind. destruct (Hm s) as [E C].
  destruct (m s) as [a s1|e s1|s1]; cbn in E, C |- *; [|split; assumption..].
  destruct (Hf a s1) as [E1 C1]. split; [congruence|].
  eapply same_commands_trans; eassumption.
Qed.

Lemma quiet_try_except {A : Type} (body : M A) (handler : exn -> M A) :
  quiet body -> (forall e, quiet (handler e)) -> quiet (try_except body handler).
Proof.
  intros Hm Hf s. unfold try_except. destruct (Hm s) as [E C].
  destruct (body s) as [a s1|e s1|s1]; cbn in E, C |- *; [split; assumption| |split; assumption].
  destruct (Hf e s1) as [E1 C1]. split; [congruence|].
  eapply same_commands_trans; eassumption.
Qed.

Lemma quiet_set_condition (c : gmap string pyval) (ref : Z) :
  quiet (modify (with_library (alter (set_condition c) ref))).
Proof.
  intros s. split; [reflexivity|]. intros n. cbn. rewrite lookup_alter.
  case_decide; [subst|reflexivity].
  destruct (command_library s !! n); reflexivity.
Qed.

Create HintDb quiet.
#[local] Hint Resolve quiet_ret quiet_raise quiet_gets quiet_lift quiet_time_time
  quiet_set_condition : quiet.
#[local] Hint Extern 2 (quiet (bind _ _)) => apply quiet_bind; [|intros] : quiet.
#[local] Hint Extern 2 (quiet (try_except _ _)) =>
  apply quiet_try_except; [|intros] : quiet.
#[local] Hint Extern 3 (quiet (if ?b then _ else _)) => destruct b : quiet.
#[local] Hint Extern 3 (quiet (match ?x with _ => _ end)) => destruct x : quiet.

Lemma quiet_is_valid_timestamp (a : string) : quiet (is_valid_timestamp a).
Proof. unfold is_valid_timestamp. auto with quiet. Qed.

Lemma quiet_validate_data (c : gmap string pyval) (a : string) :
  quiet (validate_data c a).
Proof.
  unfold validate_data. pose proof quiet_is_valid_timestamp.
  repeat (destruct (is_type _ _); [auto 10 with quiet|]).
  auto with quiet.
Qed.

Lemma quiet_get_expected_value (cid : string) : quiet (get_expected_value cid).
Proof. unfold get_expected_value. auto 10 with quiet. Qed.

Lemma quiet_judge_response (sn cid ti cs : string) (ref : Z) (e : CommandEntry)
    (response : option string) (d : Q) :
  quiet (judge_response sn cid ti cs ref e response d).
Proof.
  unfold judge_response.
  pose proof quiet_validate_data. pose proof quiet_get_expected_value.
  apply quiet_bind; [auto with quiet|]. intros now.
  destruct (negb (str_truthy response)); [auto with quiet|].
  destruct (classify_data _) as [p a].
  destruct (negb _); [auto with quiet|].
  destruct (is_deferred _); [auto with quiet|].
  destruct (str_truthy a); [|auto with quiet].
  apply quiet_bind; [auto|]. intros expected.
  apply quiet_bind.
  - destruct (truthy expected); [|auto with quiet].
    apply quiet_bind; [|auto with quiet].
    destruct (Condition e); auto with quiet.
  - intros [r c]. apply quiet_bind; [auto|]. intros v.
    destruct (negb v); auto with quiet.
Qed.

(** One item of a step, with the stop event not set when it is polled. *)
Lemma run_item_sends (item : string * option Z) (s : Sys) :
  lock_free s ->
  library_ok (command_library s) ->
  stop_at (world s) (polls (world s)) = false ->
  exists s',
    run_item item s = Ret tt s'
    /\ lock_free s'
    /\ library_ok (command_library s')
    /\ same_commands (command_library s) (command_library s')
    /\ stop_at (world s') = stop_at (world s)
    /\ sent (events (world s'))
       = (sent (events (world s)) ++ commands (command_library s) [item])%list
    /\ total_tests (state_manager s')
       = total_tests (state_manager s)
         + Z.of_nat (length (commands (command_library s) [item]))
    /\ current_state (state_manager s') = current_state (state_manager s).
Proof.
  intros Hl Hk Hs. destruct item as [name [n|]]; unfold run_item, commands; cbn.
  2:{ exists s. rewrite app_nil_r, Z.add_0_r.
      repeat (split; [solve [auto using same_commands_refl]|]); auto. }
  unfold bind.
  destruct (command_library s !! n) as [e|] eqn:Hf.
  2:{ rewrite (run_test_task_missing name n s Hs Hf). eexists.
      split; [reflexivity|]. cbn. unfold sent. rewrite omap_app. cbn.
      rewrite !app_nil_r, Z.add_0_r.
      repeat (split; [solve [auto using same_commands_refl]|]); auto. }
  destruct (run_test_task_found name n e s Hs Hf)
    as (s2 & E & Hm & Hlib & _ & _ & _ & _ & _ & Hsent).
  pose proof (tame_run_test_task name n s) as [L _].
  rewrite E in *.
  assert (condition_ok (default ∅ (Condition e))) as Hc.
  { destruct (Condition e) as [c|] eqn:He; [|apply condition_ok_empty].
    exact (Hk n e c Hf He). }
  assert (library_ok (command_library s2)) as Hk2 by (rewrite Hlib; exact Hk).
  set (d := (clock _ _ - clock _ _)%Q) in *.
  destruct (judge_response_returns name (ID e) (Title e) (Command_Sends e) n e
              (transport_reply (port (world s) (calls (world s)))) d s2 Hc Hk2)
    as (res & s3 & J & Hk3).
  unfold bind in L |- *. rewrite J in L |- *. cbn in L |- *.
  assert (state_manager s3 = state_manager s2) as Hm3.
  { pose proof (tame_judge_response name (ID e) (Title e) (Command_Sends e) n e
                  (transport_reply (port (world s) (calls (world s)))) d s2) as [_ T].
    now rewrite J in T. }
  pose proof (quiet_judge_response name (ID e) (Title e) (Command_Sends e) n e
                (transport_reply (port (world s) (calls (world s)))) d s2) as [Q1 Q2].
  rewrite J in Q1, Q2. cbn in Q1, Q2.
  assert (lock_free s3) as Hl3 by (unfold lock_free in *; congruence).
  destruct (add_result_effect res s3 Hl3)
    as (s' & A & Hw & Hlib' & _ & _ & Hl' & Hcur & _ & Htot & _).
  exists s'. split; [exact A|]. split; [exact Hl'|].
  rewrite Hlib', Hw, Hcur, Htot, Hm3, Hm, Q1, Hsent.
  split; [exact Hk3|]. split; [rewrite <- Hlib; exact Q2|].
  split; [apply (later_stop _ _ L)|].
  repeat split; lia.
Qed.

Lemma run_items_sends (items : TestStep) (s : Sys) :
  lock_free s ->
  library_ok (command_library s) ->
  (forall n, stop_at (world s) n = false) ->
  exists s',
    run_items items s = Ret tt s'
    /\ lock_free s'
    /\ library_ok (command_library s')
    /\ same_commands (command_library s) (command_library s')
    /\ stop_at (world s') = stop_at (world s)
    /\ sent (events (world s'))
       = (sent (events (world s)) ++ commands (command_library s) items)%list
    /\ total_tests (state_manager s')
       = total_tests (state_manager s)
         + Z.of_nat (length (commands (command_library s) items))
    /\ current_state (state_manager s') = current_state (state_manager s).
Proof.
  revert s. induction items as [|item rest IH]; intros s Hl Hk Hs.
  - exists s. cbn. rewrite app_nil_r, Z.add_0_r.
    repeat (split; [solve [auto using same_commands_refl]|]); auto.
  - destruct (run_item_sends item s Hl Hk (Hs _))
      as (s1 & R & Hl1 & Hk1 & C1 & S1 & E1 & T1 & U1).
    destruct (IH s1 Hl1 Hk1) as (s' & R' & Hl' & Hk' & C' & S' & E' & T' & U').
    { intros n. rewrite S1. apply Hs. }
    exists s'. rewrite (run_items_next _ rest _ _ R).
    split; [exact R'|]. split; [exact Hl'|]. split; [exact Hk'|].
    split; [eapply same_commands_trans; eassumption|].
    split; [congruence|].
    change (item :: rest) with ([item] ++ rest)%list.
    rewrite commands_app, E', T', U', E1, T1, U1, (commands_same _ _ rest C1).
    rewrite length_app, <- app_assoc. repeat split; lia.
Qed.


